(** * A shallow embedding of the Django project [project/]

    The project consists of two applications:
    - [core]: the user model, the abstract [AuditModel], and the views
      [login_view] and [logout_view] (core/models.py, core/views.py);
    - [products]: [ProductModel], [ProductForm] and the view
      [create_product] (products/models.py, products/forms.py,
      products/views.py).

    The views are thin glue over Django.  The pieces of Django they call
    (QueryDict lookup, [authenticate], [login], [logout], the decorators
    [login_required] and [permission_required], form field cleaning,
    [Model.save], [on_delete=PROTECT]) are modelled here as executable
    functions following Django's documented behaviour with the default
    settings; every such definition says which Django function it stands
    for.  The views themselves are transcribed line by line.

    Text is modelled by [string]; a character stands for one code point
    in the range 0..255, so [String.length] is Python's [len]. *)

From stdpp Require Import base strings gmap list.
From Stdlib Require Import ZArith Ascii String Lia.

Local Open Scope string_scope.
Local Open Scope Z_scope.

(** ** Python text helpers *)
Module Text.

Definition code (c : ascii) : nat := nat_of_ascii c.

(** [str.isspace] on the code points 0..255: TAB, LF, VT, FF, CR,
    FS, GS, RS, US, SPACE, NEL and NBSP. *)
Definition is_space (c : ascii) : bool :=
  let n := code c in
  ((9 <=? n) && (n <=? 13))%nat || ((28 <=? n) && (n <=? 32))%nat
  || (n =? 133)%nat || (n =? 160)%nat.

Fixpoint lstrip (l : list ascii) : list ascii :=
  match l with
  | c :: l' => if is_space c then lstrip l' else l
  | [] => []
  end.

Definition chars (s : string) : list ascii := list_ascii_of_string s.
Definition text (l : list ascii) : string := string_of_list_ascii l.

(** [str.strip()] *)
Definition strip_chars (l : list ascii) : list ascii :=
  rev (lstrip (rev (lstrip l))).
Definition strip (s : string) : string := text (strip_chars (chars s)).

(** ['\x00' in s] *)
Definition has_nul (s : string) : bool :=
  existsb (fun c => (code c =? 0)%nat) (chars s).

(** [str.lower] on ASCII letters. *)
Definition lower_char (c : ascii) : ascii :=
  let n := code c in
  if ((65 <=? n) && (n <=? 90))%nat then ascii_of_nat (n + 32) else c.
Definition lower (s : string) : string := text (map lower_char (chars s)).

Definition is_digit (c : ascii) : bool :=
  let n := code c in ((48 <=? n) && (n <=? 57))%nat.
Definition digit_value (c : ascii) : nat := (code c - 48)%nat.

End Text.

(** ** Python's [decimal.Decimal], as far as form cleaning needs it *)
Module PyDecimal.
Import Text.

(** [Decimal.as_tuple()]: sign, coefficient digits, exponent; the
    special values carry no coefficient. *)
Inductive Decimal : Type :=
| Finite (negative : bool) (digits : list nat) (exponent : Z)
| Infinity (negative : bool)
| NaN.

Definition is_finite (d : Decimal) : bool :=
  match d with Finite _ _ _ => true | _ => false end.

(** Longest prefix of decimal digits, and the rest. *)
Fixpoint span_digits (l : list ascii) : list nat * list ascii :=
  match l with
  | c :: l' =>
      if is_digit c
      then let '(ds, r) := span_digits l' in (digit_value c :: ds, r)
      else ([], l)
  | [] => ([], [])
  end.

(** [[-+]?] *)
Definition parse_sign (l : list ascii) : bool * list ascii :=
  match l with
  | c :: l' =>
      if (code c =? 45)%nat then (true, l')
      else if (code c =? 43)%nat then (false, l')
      else (false, l)
  | [] => (false, [])
  end.

(** [int(digits)] *)
Definition int_of_digits (ds : list nat) : Z :=
  fold_left (fun acc d => 10 * acc + Z.of_nat d) ds 0.

(** [str(int(intpart + fracpart))] as a digit tuple: leading zeros
    dropped, a single [0] for zero. *)
Fixpoint drop_zeros (ds : list nat) : list nat :=
  match ds with
  | O :: ds' => drop_zeros ds'
  | _ => ds
  end.
Definition coefficient (ds : list nat) : list nat :=
  match drop_zeros ds with [] => [O] | ds' => ds' end.

(** The optional exponent, up to the end of the text: [E], an
    optional sign, one or more digits. *)
Definition parse_exponent (l : list ascii) : option Z :=
  match l with
  | [] => Some 0
  | c :: l' =>
      if (code (lower_char c) =? 101)%nat then
        let '(neg, l'') := parse_sign l' in
        match span_digits l'' with
        | (d :: ds, []) =>
            let e := int_of_digits (d :: ds) in
            Some (if neg then - e else e)
        | _ => None
        end
      else None
  end.

(** The numeric alternative of the grammar: an integer part of zero
    or more digits, an optional ['.'] with zero or more fraction
    digits, at least one digit in all, and an optional exponent. *)
Definition parse_number (neg : bool) (l : list ascii) : option Decimal :=
  let '(ip, r1) := span_digits l in
  let '(fp, r2) :=
    match r1 with
    | c :: r => if (code c =? 46)%nat then span_digits r else ([], r1)
    | [] => ([], r1)
    end in
  match ip, fp with
  | [], [] => None
  | _, _ =>
      match parse_exponent r2 with
      | Some e =>
          Some (Finite neg (coefficient (ip ++ fp))
                  (e - Z.of_nat (List.length fp)))
      | None => None
      end
  end.

(** The special alternatives: [Inf], [Infinity], and [NaN] or [sNaN]
    followed by zero or more digits, matched without regard to case. *)
Definition parse_special (neg : bool) (l : list ascii) : option Decimal :=
  let s := lower (text l) in
  if bool_decide (s = "inf") || bool_decide (s = "infinity")
  then Some (Infinity neg)
  else
    let body :=
      match chars s with
      | c :: r => if (code c =? 115)%nat then r else chars s
      | [] => []
      end in
    match body with
    | n :: a :: n' :: diag =>
        if bool_decide (text [n; a; n'] = "nan")
           && forallb is_digit diag
        then Some NaN else None
    | _ => None
    end.

(** [Decimal(str)]: the argument is stripped, underscores are
    removed, and the rest has to match the numeric-string grammar;
    [None] stands for [decimal.InvalidOperation].  Exponents are
    unbounded here. *)
Definition of_string (s : string) : option Decimal :=
  let l := filter (fun c => code c ≠ 95%nat) (strip_chars (chars s)) in
  let '(neg, body) := parse_sign l in
  match parse_number neg body with
  | Some d => Some d
  | None => parse_special neg body
  end.

(** Division of a natural number by [10 ^ k], rounding half to
    even. *)
Definition round_half_even (n k : Z) : Z :=
  let p := 10 ^ k in
  let q := n / p in
  let r := n mod p in
  if 2 * r <? p then q
  else if p <? 2 * r then q + 1
  else if Z.even q then q else q + 1.

(** What a [decimal(10,2)] column receives: the value quantized to
    two places with a precision of ten digits, here in hundredths.
    [None] stands for [decimal.InvalidOperation] (a value that is not
    finite or needs more than ten digits). *)
Definition to_cents (d : Decimal) : option Z :=
  match d with
  | Finite neg ds e =>
      let n := int_of_digits ds in
      let v := if 0 <=? e + 2 then n * 10 ^ (e + 2)
               else round_half_even n (- (e + 2)) in
      if v <? 10 ^ 10 then Some (if neg then - v else v) else None
  | _ => None
  end.

End PyDecimal.

Import PyDecimal.

(** ** HTTP objects (django.http) *)

(** An uploaded file: its name, its size in bytes, and whether Pillow
    accepts it (the content verifies as an image and the extension is
    one Pillow knows).  The bytes themselves play no role. *)
Record UploadedFile : Type := {
  file_name : string;
  file_size : N;
  is_image : bool
}.

(** [request.method], [request.path], and the parsed body:
    [request.POST] (the last value of each key) and [request.FILES]. *)
Record HttpRequest : Type := {
  method : string;
  path : string;
  POST : gmap string string;
  FILES : gmap string UploadedFile
}.

Inductive Exception : Type :=
| MultiValueDictKeyError (key : string)
| PermissionDenied
| ValueError
| IntegrityError
| InvalidOperation
| ProtectedError.

(** ** core/models.py *)

(** [UserModel(AbstractUser)] adds no field.  Of [AbstractUser] the
    views use the primary key, the username, the stored password hash
    (represented by the check it supports, [user.check_password(raw)]),
    the two flags, and the permissions granted directly or through
    groups. *)
Record UserModel : Type := {
  pk : nat;
  username : string;
  check_password : string -> bool;
  is_active : bool;
  is_superuser : bool;
  permissions : list string
}.

(** [request.user]: a [UserModel], or [None] for [AnonymousUser]. *)
Definition is_authenticated (u : option UserModel) : bool :=
  match u with Some _ => true | None => false end.

(** The fields of the abstract [AuditModel], as an instance in memory
    holds them: the two timestamps and the two user references (by
    key) are unset until they are assigned, and [active] has
    [default=True]. *)
Record AuditModel : Type := {
  created_at : option N;
  updated_at : option N;
  created_by : option nat;
  updated_by : option nat;
  active : bool
}.

Definition AuditModel_new : AuditModel :=
  {| created_at := None; updated_at := None;
     created_by := None; updated_by := None; active := true |}.

(** ** products/models.py *)

(** A [ProductModel(AuditModel)] instance in memory: the primary key
    (unset until the instance is saved), the four declared fields, and
    the fields inherited from [AuditModel]. *)
Record ProductModel : Type := {
  id : option nat;
  imagen : option UploadedFile;
  nombre : string;
  descripcion : string;
  precio : option Decimal;
  audit : AuditModel
}.

(** [ProductModel()] *)
Definition ProductModel_new : ProductModel :=
  {| id := None; imagen := None; nombre := ""; descripcion := "";
     precio := None; audit := AuditModel_new |}.

(** A row of the product table.  The columns declared [null=False]
    carry a value; [row_precio] is the [decimal(10,2)] column in
    hundredths; [row_imagen] is the stored upload, if any. *)
Record ProductRow : Type := {
  row_id : nat;
  row_imagen : option UploadedFile;
  row_nombre : string;
  row_descripcion : string;
  row_precio : Z;
  row_created_at : N;
  row_updated_at : N;
  row_created_by : nat;
  row_updated_by : nat;
  row_active : bool
}.

(** The two tables. *)
Record Database : Type := {
  users : list UserModel;
  products : list ProductRow
}.

(** ** Sessions, messages and the state a view runs in *)

(** [request.session]: the authenticated user's key ([_auth_user_id])
    and whatever else the session holds. *)
Record Session : Type := {
  auth_user_id : option nat;
  session_data : gmap string string
}.

Definition empty_session : Session :=
  {| auth_user_id := None; session_data := ∅ |}.

(** django.contrib.messages levels. *)
Inductive Level : Type := SUCCESS | ERROR.
Definition Message : Type := Level * string.

(** What a view can read and change: the database, the session,
    [request.user], the message storage, and the clock reading
    [timezone.now()] of the request. *)
Record Env : Type := {
  db : Database;
  session : Session;
  user : option UserModel;
  messages : list Message;
  now : N
}.

Definition with_db (d : Database) (e : Env) : Env :=
  {| db := d; session := session e; user := user e;
     messages := messages e; now := now e |}.
Definition with_session (s : Session) (e : Env) : Env :=
  {| db := db e; session := s; user := user e;
     messages := messages e; now := now e |}.
Definition with_user (u : option UserModel) (e : Env) : Env :=
  {| db := db e; session := session e; user := u;
     messages := messages e; now := now e |}.
Definition with_messages (m : list Message) (e : Env) : Env :=
  {| db := db e; session := session e; user := user e;
     messages := m; now := now e |}.

(** ** Computations that change the state and may raise *)

Inductive Result (A : Type) : Type :=
| Ok (a : A)
| Raised (e : Exception).
Arguments Ok {A} a.
Arguments Raised {A} e.

(** The state reached when an exception is raised is kept: what was
    written before the raise stays written. *)
Definition M (A : Type) : Type := Env -> Result A * Env.

Definition ret {A} (a : A) : M A := fun e => (Ok a, e).
Definition bind {A B} (m : M A) (k : A -> M B) : M B :=
  fun e => match m e with
           | (Ok a, e') => k a e'
           | (Raised x, e') => (Raised x, e')
           end.
Definition raise {A} (x : Exception) : M A := fun e => (Raised x, e).
Definition get : M Env := fun e => (Ok e, e).
Definition modify (f : Env -> Env) : M unit := fun e => (Ok tt, f e).

#[global] Instance M_ret : MRet M := @ret.
#[global] Instance M_bind : MBind M := fun A B k m => bind m k.

(** ** django.http *)

(** [QueryDict.__getitem__]: the value of the key, or
    [MultiValueDictKeyError] when the key is absent. *)
Definition getitem (d : gmap string string) (key : string) : M string :=
  match d !! key with
  | Some v => mret v
  | None => raise (MultiValueDictKeyError key)
  end.

(** ** django.contrib.messages *)

Definition messages_success (message : string) : M unit :=
  modify (fun e => with_messages (messages e ++ [(SUCCESS, message)])%list e).
Definition messages_error (message : string) : M unit :=
  modify (fun e => with_messages (messages e ++ [(ERROR, message)])%list e).

(** ** django.contrib.auth, with the default [ModelBackend] *)

(** [UserModel.objects.get_by_natural_key(username)] *)
Definition get_by_natural_key (d : Database) (name : string)
  : option UserModel :=
  List.find (fun u => bool_decide (username u = name)) (users d).

(** [UserModel.objects.get(pk=user_id)] *)
Definition get_by_pk (d : Database) (k : nat) : option UserModel :=
  List.find (fun u => bool_decide (pk u = k)) (users d).

(** [ModelBackend.user_can_authenticate] *)
Definition user_can_authenticate (u : UserModel) : bool := is_active u.

(** [authenticate(request, username=..., password=...)]: the user of
    that name, if the password checks and the user is active. *)
Definition authenticate (username password : string)
  : M (option UserModel) :=
  e ← get;
  match get_by_natural_key (db e) username with
  | Some u =>
      if check_password u password && user_can_authenticate u
      then mret (Some u) else mret None
  | None => mret None
  end.

(** [login(request, user)]: a session that belongs to another user is
    flushed first; then the user's key is written to the session and
    [request.user] is set.  (The session hash and the [last_login]
    stamp that [login] also writes are not part of this model.) *)
Definition login (u : UserModel) : M unit :=
  modify (fun e =>
    let s := session e in
    let kept :=
      match auth_user_id s with
      | Some k => if bool_decide (k = pk u) then session_data s else ∅
      | None => session_data s
      end in
    with_user (Some u)
      (with_session {| auth_user_id := Some (pk u);
                       session_data := kept |} e)).

(** [logout(request)]: [request.session.flush()], then [request.user]
    becomes [AnonymousUser]. *)
Definition logout : M unit :=
  modify (fun e => with_user None (with_session empty_session e)).

(** [get_user(request)], what [AuthenticationMiddleware] puts behind
    [request.user]: the active user the session names, if there is
    one. *)
Definition get_user (d : Database) (s : Session) : option UserModel :=
  match auth_user_id s with
  | Some k =>
      match get_by_pk d k with
      | Some u => if user_can_authenticate u then Some u else None
      | None => None
      end
  | None => None
  end.

(** [user.has_perm(perm)]: never for [AnonymousUser] or an inactive
    user, always for an active superuser, else by membership. *)
Definition has_perm (u : option UserModel) (perm : string) : bool :=
  match u with
  | Some u =>
      is_active u && (is_superuser u || bool_decide (perm ∈ permissions u))
  | None => false
  end.

(** [user.has_perms(perm_list)] *)
Definition has_perms (u : option UserModel) (perms : list string) : bool :=
  forallb (has_perm u) perms.

(** ** Responses *)

(** Where a redirect goes: [redirect('login')] goes to the URL the
    name resolves to; the decorators go to [settings.LOGIN_URL] with
    the requested path as [next]. *)
Inductive RedirectTarget : Type :=
| UrlNamed (name : string)
| LoginUrl (next : string).

Inductive ErrorCode : Type :=
| e_required | e_invalid | e_max_length | e_null_characters_not_allowed
| e_max_digits | e_max_decimal_places | e_max_whole_digits
| e_empty | e_invalid_image | e_contradiction.

#[global] Instance ErrorCode_eq_dec : EqDecision ErrorCode.
Proof. solve_decision. Defined.

(** [ProductForm]: whether it is bound, the data and files it was
    bound to, [_errors] (unset until the form is cleaned), and the
    instance it fills. *)
Record ProductForm : Type := {
  is_bound : bool;
  data : gmap string string;
  files : gmap string UploadedFile;
  errors : option (gmap string (list ErrorCode));
  instance : ProductModel
}.

(** A response: [HttpResponse(content, status=...)], the result of
    [render(request, template, context)] (status 200; the templates
    are not part of the sources, so the response is kept as template
    name and context), or a redirect (status 302). *)
Inductive HttpResponse : Type :=
| Response (content : string) (status : nat)
| Rendered (template : string) (context : gmap string ProductForm)
| HttpResponseRedirect (to : RedirectTarget).

Definition status_code (r : HttpResponse) : nat :=
  match r with
  | Response _ s => s
  | Rendered _ _ => 200
  | HttpResponseRedirect _ => 302
  end.

Definition View : Type := HttpRequest -> M (option HttpResponse).

Definition render (request : HttpRequest) (template : string)
    (context : gmap string ProductForm) : M HttpResponse :=
  mret (Rendered template context).

Definition redirect (name : string) : M HttpResponse :=
  mret (HttpResponseRedirect (UrlNamed name)).

(** ** django.contrib.auth.decorators *)

(** [user_passes_test(test_func)]: run the view if the test accepts
    [request.user], else redirect to the login URL. *)
Definition user_passes_test (test_func : option UserModel -> M bool)
    (view_func : View) : View :=
  fun request =>
    e ← get;
    ok ← test_func (user e);
    if (ok : bool) then view_func request
    else mret (Some (HttpResponseRedirect (LoginUrl (path request)))).

Definition login_required : View -> View :=
  user_passes_test (fun u => mret (is_authenticated u)).

(** [permission_required(perm, raise_exception=...)] *)
Definition permission_required (perm : string) (raise_exception : bool)
  : View -> View :=
  user_passes_test (fun u =>
    if has_perms u [perm] then mret true
    else if raise_exception then raise PermissionDenied
    else mret false).

(** ** django.forms fields *)

(** [CharField(required, max_length, strip=True).clean(value)]:
    [to_python] strips the text (an absent value is empty), [validate]
    asks for a value when one is required, and the validators
    ([MaxLengthValidator], when a length is given, then
    [ProhibitNullCharactersValidator]) each add their error. *)
Definition CharField_clean (required : bool) (max_length : option nat)
    (value : option string) : list ErrorCode + string :=
  let value := match value with Some v => Text.strip v | None => "" end in
  if bool_decide (value = "") then
    if required then inl [e_required] else inr value
  else
    let too_long :=
      match max_length with
      | Some n => (n <? String.length value)%nat
      | None => false
      end in
    match ((if too_long then [e_max_length] else [])
           ++ (if Text.has_nul value
               then [e_null_characters_not_allowed] else []))%list with
    | [] => inr value
    | errs => inl errs
    end.

(** [DecimalValidator(max_digits, decimal_places)(value)] *)
Definition DecimalValidator (max_digits decimal_places : Z) (value : Decimal)
  : option ErrorCode :=
  match value with
  | Finite _ digit_tuple exponent =>
      let len := Z.of_nat (List.length digit_tuple) in
      let '(digits, decimals) :=
        if 0 <=? exponent then
          ((if bool_decide (digit_tuple = [O]) then len else len + exponent),
           0)
        else if len <? Z.abs exponent
             then (Z.abs exponent, Z.abs exponent)
             else (len, Z.abs exponent) in
      let whole_digits := digits - decimals in
      if max_digits <? digits then Some e_max_digits
      else if decimal_places <? decimals then Some e_max_decimal_places
      else if max_digits - decimal_places <? whole_digits
           then Some e_max_whole_digits
           else None
  | _ => Some e_invalid
  end.

(** [DecimalField(required, max_digits, decimal_places).clean(value)]:
    [to_python] turns an empty value into [None] and anything else
    into a [Decimal], or fails as invalid; [validate] asks for a value
    when one is required and for a finite one; then the validator. *)
Definition DecimalField_clean (required : bool) (max_digits decimal_places : Z)
    (value : option string) : list ErrorCode + option Decimal :=
  let empty :=
    match value with
    | Some v => bool_decide (v = "")
    | None => true
    end in
  if empty then (if required then inl [e_required] else inr None)
  else
    match value ≫= of_string with
    | None => inl [e_invalid]
    | Some d =>
        if negb (is_finite d) then inl [e_invalid]
        else match DecimalValidator max_digits decimal_places d with
             | Some err => inl [err]
             | None => inr (Some d)
             end
    end.

(** What the [ClearableFileInput] widget hands to the field. *)
Inductive FileInput : Type :=
| NoUpload
| Upload (f : UploadedFile)
| ClearFalse
| FILE_INPUT_CONTRADICTION.

(** [CheckboxInput().value_from_datadict(data, files, name)] *)
Definition checkbox_value (d : gmap string string) (name : string) : bool :=
  match d !! name with
  | None => false
  | Some v =>
      if bool_decide (Text.lower v = "true") then true
      else if bool_decide (Text.lower v = "false") then false
      else negb (bool_decide (v = ""))
  end.

(** [bool(upload)]: a file object is true when its name is not empty. *)
Definition file_truthy (f : UploadedFile) : bool :=
  negb (bool_decide (file_name f = "")).

(** [ClearableFileInput.value_from_datadict] of a field that is not
    required: the upload, unless the clear box [<name>-clear] is
    ticked. *)
Definition file_widget_value (d : gmap string string)
    (fs : gmap string UploadedFile) (name : string) : FileInput :=
  let upload := fs !! name in
  if checkbox_value d (name +:+ "-clear") then
    match upload with
    | Some f => if file_truthy f then FILE_INPUT_CONTRADICTION else ClearFalse
    | None => ClearFalse
    end
  else match upload with Some f => Upload f | None => NoUpload end.

(** The cleaned value of a file field: nothing, the request to clear,
    or the accepted upload. *)
Inductive FileCleaned : Type :=
| CleanedNone
| CleanedFalse
| CleanedFile (f : UploadedFile).

(** [ImageField(required=False, max_length).clean(data, initial=None)]:
    [FileField.clean] deals with the contradiction and the clear
    request, [FileField.to_python] checks name and size, and
    [ImageField] asks Pillow. *)
Definition ImageField_clean (max_length : nat) (data : FileInput)
  : list ErrorCode + FileCleaned :=
  match data with
  | FILE_INPUT_CONTRADICTION => inl [e_contradiction]
  | ClearFalse => inr CleanedFalse
  | NoUpload => inr CleanedNone
  | Upload f =>
      if (max_length <? String.length (file_name f))%nat
      then inl [e_max_length]
      else if bool_decide (file_name f = "") then inl [e_invalid]
      else if (file_size f =? 0)%N then inl [e_empty]
      else if negb (is_image f) then inl [e_invalid_image]
      else inr (CleanedFile f)
  end.

(** ** products/forms.py: [ProductForm]

    A [ModelForm] over [ProductModel] with
    [fields = ['imagen', 'nombre', 'descripcion', 'precio']].  The form
    fields follow from the model fields:
    - [imagen]: [ImageField(null=True, blank=True)], not required, file
      names of at most 100 characters (the model field's default);
    - [nombre]: [CharField(max_length=100, blank=False)], required;
    - [descripcion]: [TextField(null=True, blank=True)], not required,
      no length limit;
    - [precio]: [DecimalField(max_digits=10, decimal_places=2,
      blank=False)], required. *)

Definition clean_imagen (d : gmap string string)
    (fs : gmap string UploadedFile) : list ErrorCode + FileCleaned :=
  ImageField_clean 100 (file_widget_value d fs "imagen").
Definition clean_nombre (d : gmap string string) : list ErrorCode + string :=
  CharField_clean true (Some 100%nat) (d !! "nombre").
Definition clean_descripcion (d : gmap string string)
  : list ErrorCode + string :=
  CharField_clean false None (d !! "descripcion").
Definition clean_precio (d : gmap string string)
  : list ErrorCode + option Decimal :=
  DecimalField_clean true 10 2 (d !! "precio").

(** [ProductForm()] and [ProductForm(data, files)] *)
Definition ProductForm_new : ProductForm :=
  {| is_bound := false; data := ∅; files := ∅; errors := None;
     instance := ProductModel_new |}.
Definition ProductForm_bound (d : gmap string string)
    (fs : gmap string UploadedFile) : ProductForm :=
  {| is_bound := true; data := d; files := fs; errors := None;
     instance := ProductModel_new |}.

(** [form.add_error(field, errors)] for a field that failed. *)
Definition add_error {A} (field : string) (r : list ErrorCode + A)
    (m : gmap string (list ErrorCode)) : gmap string (list ErrorCode) :=
  match r with
  | inl errs => <[field := errs]> m
  | inr _ => m
  end.

(** [construct_instance]: each field that cleaned is written to the
    instance; the others are left as they were. *)
Definition construct_instance (inst : ProductModel)
    (c_imagen : list ErrorCode + FileCleaned)
    (c_nombre : list ErrorCode + string)
    (c_descripcion : list ErrorCode + string)
    (c_precio : list ErrorCode + option Decimal) : ProductModel :=
  {| id := id inst;
     imagen := match c_imagen with
               | inr (CleanedFile f) => Some f
               | inr CleanedFalse => None
               | _ => imagen inst
               end;
     nombre := match c_nombre with inr v => v | inl _ => nombre inst end;
     descripcion := match c_descripcion with
                    | inr v => v
                    | inl _ => descripcion inst
                    end;
     precio := match c_precio with inr v => v | inl _ => precio inst end;
     audit := audit inst |}.

(** The error dict after the four fields were cleaned in order. *)
Definition collect_errors
    (c_imagen : list ErrorCode + FileCleaned)
    (c_nombre : list ErrorCode + string)
    (c_descripcion : list ErrorCode + string)
    (c_precio : list ErrorCode + option Decimal)
  : gmap string (list ErrorCode) :=
  add_error "precio" c_precio
    (add_error "descripcion" c_descripcion
       (add_error "nombre" c_nombre
          (add_error "imagen" c_imagen ∅))).

(** [form.full_clean()]: the fields are cleaned in their declared
    order, the errors collected, and the instance constructed.  The
    model validation that follows repeats the same checks on the same
    fields (the audit fields are not form fields and are excluded), so
    it adds no error.  An unbound form gets an empty error dict. *)
Definition full_clean (form : ProductForm) : ProductForm :=
  if is_bound form then
    let c_imagen := clean_imagen (data form) (files form) in
    let c_nombre := clean_nombre (data form) in
    let c_descripcion := clean_descripcion (data form) in
    let c_precio := clean_precio (data form) in
    {| is_bound := true; data := data form; files := files form;
       errors :=
         Some (collect_errors c_imagen c_nombre c_descripcion c_precio);
       instance :=
         construct_instance (instance form)
           c_imagen c_nombre c_descripcion c_precio |}
  else
    {| is_bound := false; data := data form; files := files form;
       errors := Some ∅; instance := instance form |}.

(** The [form.errors] property: cleans the form on first use. *)
Definition form_errors (form : ProductForm)
  : gmap string (list ErrorCode) * ProductForm :=
  match errors form with
  | Some errs => (errs, form)
  | None =>
      let form' := full_clean form in
      (default ∅ (errors form'), form')
  end.

(** [form.is_valid()]: [self.is_bound and not self.errors] *)
Definition is_valid (form : ProductForm) : bool * ProductForm :=
  if is_bound form then
    let '(errs, form') := form_errors form in
    (bool_decide (errs = ∅), form')
  else (false, form).

(** ** Saving and deleting through the ORM *)

Definition user_exists (d : Database) (k : nat) : bool :=
  existsb (fun u => bool_decide (pk u = k)) (users d).

Definition row_exists (d : Database) (k : nat) : bool :=
  existsb (fun r => bool_decide (row_id r = k)) (products d).

(** The key the database gives a new row: one not in use. *)
Definition next_id (d : Database) : nat :=
  S (foldr Nat.max O (map row_id (products d))).

Definition with_products (rows : list ProductRow) (d : Database) : Database :=
  {| users := users d; products := rows |}.

(** [instance.save()].  An instance without a key, or with a key no
    row has, is inserted; otherwise its row is updated.  [updated_at]
    ([auto_now]) is set to the current time on every save and
    [created_at] ([auto_now_add]) on insert.  The database refuses a
    row whose [precio], [created_by] or [updated_by] is null or whose
    user references name no user ([IntegrityError]). *)
Definition Model_save (inst : ProductModel) : M ProductModel :=
  e ← get;
  let d := db e in
  let existing :=
    match id inst with Some k => row_exists d k | None => false end in
  let created :=
    if existing then created_at (audit inst) else Some (now e) in
  match precio inst with
  | None => raise IntegrityError
  | Some p =>
      match to_cents p with
      | None => raise InvalidOperation
      | Some cents =>
          match created, created_by (audit inst), updated_by (audit inst) with
          | Some t, Some c, Some u =>
              if user_exists d c && user_exists d u then
                let k := match id inst with
                         | Some k => k
                         | None => next_id d
                         end in
                let row :=
                  {| row_id := k; row_imagen := imagen inst;
                     row_nombre := nombre inst;
                     row_descripcion := descripcion inst;
                     row_precio := cents;
                     row_created_at := t; row_updated_at := now e;
                     row_created_by := c; row_updated_by := u;
                     row_active := active (audit inst) |} in
                let rows :=
                  if existing
                  then map (fun r => if bool_decide (row_id r = k)
                                     then row else r) (products d)
                  else (products d ++ [row])%list in
                modify (with_db (with_products rows d));;
                mret {| id := Some k; imagen := imagen inst;
                        nombre := nombre inst;
                        descripcion := descripcion inst;
                        precio := precio inst;
                        audit :=
                          {| created_at := Some t;
                             updated_at := Some (now e);
                             created_by := Some c; updated_by := Some u;
                             active := active (audit inst) |} |}
              else raise IntegrityError
          | _, _, _ => raise IntegrityError
          end
      end
  end.

(** Whether a product row refers to the user with key [k]. *)
Definition references (k : nat) (r : ProductRow) : bool :=
  bool_decide (row_created_by r = k) || bool_decide (row_updated_by r = k).

(** [user.delete()] for the user with key [k].  Both references of
    [AuditModel] are declared [on_delete=models.PROTECT]
    (core/models.py), so the ORM raises [ProtectedError] while a
    product refers to the user.  No view of the project deletes a
    user. *)
Definition UserModel_delete (k : nat) : M unit :=
  e ← get;
  let d := db e in
  if existsb (references k) (products d) then raise ProtectedError
  else
    modify (with_db
      {| users := List.filter (fun u => negb (bool_decide (pk u = k)))
                    (users d);
         products := products d |}).

Definition with_audit (a : AuditModel) (inst : ProductModel) : ProductModel :=
  {| id := id inst; imagen := imagen inst; nombre := nombre inst;
     descripcion := descripcion inst; precio := precio inst; audit := a |}.

Definition with_instance (inst : ProductModel) (form : ProductForm)
  : ProductForm :=
  {| is_bound := is_bound form; data := data form; files := files form;
     errors := errors form; instance := inst |}.

(** [form.save(commit)]: refuses a form with errors; with [commit] the
    instance is saved. *)
Definition ProductForm_save (form : ProductForm) (commit : bool)
  : M ProductForm :=
  let '(errs, form) := form_errors form in
  if bool_decide (errs = ∅) then
    if commit then
      inst ← Model_save (instance form);
      mret (with_instance inst form)
    else mret form
  else raise ValueError.

(** [instance.created_by = user]: only a [UserModel] can be assigned. *)
Definition set_created_by (u : option UserModel) (form : ProductForm)
  : M ProductForm :=
  match u with
  | Some u =>
      let a := audit (instance form) in
      mret (with_instance
              (with_audit
                 {| created_at := created_at a; updated_at := updated_at a;
                    created_by := Some (pk u); updated_by := updated_by a;
                    active := active a |} (instance form)) form)
  | None => raise ValueError
  end.

(** [instance.updated_by = user] *)
Definition set_updated_by (u : option UserModel) (form : ProductForm)
  : M ProductForm :=
  match u with
  | Some u =>
      let a := audit (instance form) in
      mret (with_instance
              (with_audit
                 {| created_at := created_at a; updated_at := updated_at a;
                    created_by := created_by a; updated_by := Some (pk u);
                    active := active a |} (instance form)) form)
  | None => raise ValueError
  end.

(** ** products/views.py *)

(** The body of [create_product] (lines 11-29). *)
Definition create_product_body : View := fun request =>
  let context : gmap string ProductForm := {[ "form" := ProductForm_new ]} in
  if bool_decide (method request = "GET") then
    r ← render request "ProductForm.html" context;
    mret (Some r)
  else if bool_decide (method request = "POST") then
    let form := ProductForm_bound (POST request) (FILES request) in
    let '(valid, form) := is_valid form in
    form ← (if valid then
              form ← ProductForm_save form false;
              e ← get;
              form ← set_created_by (user e) form;
              e ← get;
              form ← set_updated_by (user e) form;
              form ← ProductForm_save form true;
              messages_success "Product created successfully";;
              mret form
            else
              messages_error "Error creating product";;
              mret form);
    r ← render request "ProductForm.html" {[ "form" := form ]};
    mret (Some r)
  else mret None.

(** The two decorators of lines 9-10, [login_required] outermost. *)
Definition add_productmodel : string := "products.add_productmodel".
Definition guarded (view_func : View) : View :=
  login_required (permission_required add_productmodel true view_func).

Definition create_product : View := guarded create_product_body.

(** ** core/views.py *)

Definition login_view : View := fun request =>
  if bool_decide (method request = "GET") then
    e ← get;
    if is_authenticated (user e) then
      mret (Some (Response "Already logged in" 200))
    else
      r ← render request "LoginView.html" ∅;
      mret (Some r)
  else if bool_decide (method request = "POST") then
    username ← getitem (POST request) "username";
    password ← getitem (POST request) "password";
    user ← authenticate username password;
    match user with
    | Some user =>
        login user;;
        messages_success "Login successful";;
        mret (Some (Response "Login successful" 200))
    | None =>
        messages_error "Invalid username or password";;
        r ← redirect "login";
        mret (Some r)
    end
  else mret None.

Definition logout_view : View :=
  login_required (fun request =>
    logout;;
    r ← redirect "login";
    mret (Some r)).

(** ** The request cycle *)

(** One request: [AuthenticationMiddleware] fills [request.user] from
    the session, the view runs, and the handler turns what it gets
    into a response: [PermissionDenied] into 403, any other exception
    and a view that returns [None] into 500.  The other middleware of
    a project (CSRF protection among them) and the URL routing are
    outside this model. *)
Definition get_response (view : View) (request : HttpRequest) (e : Env)
  : HttpResponse * Env :=
  let e := with_user (get_user (db e) (session e)) e in
  match view request e with
  | (Ok (Some r), e') => (r, e')
  | (Ok None, e') => (Response "<h1>Server Error (500)</h1>" 500, e')
  | (Raised PermissionDenied, e') => (Response "<h1>403 Forbidden</h1>" 403, e')
  | (Raised _, e') => (Response "<h1>Server Error (500)</h1>" 500, e')
  end.

(** ** Properties the theorems speak about *)

(** A product row whose two user references name rows of the user
    table. *)
Definition references_existing (d : Database) (r : ProductRow) : Prop :=
  user_exists d (row_created_by r) = true
  /\ user_exists d (row_updated_by r) = true.

(** The audit invariant of the database: every product row refers to
    existing users. *)
Definition audit_ok (d : Database) : Prop :=
  Forall (references_existing d) (products d).

(** A computation that keeps the audit invariant, however it ends. *)
Definition preserves_audit {A} (m : M A) : Prop :=
  forall e, audit_ok (db e) -> audit_ok (db (m e).2).

(** A decimal digit. *)
Definition is_digit_value (d : nat) : Prop := (d < 10)%nat.

(** A submitted value that reads as a (finite) number. *)
Definition parses_as_number (value : option string) : Prop :=
  exists neg ds ex, value ≫= of_string = Some (Finite neg ds ex).

(** A field whose cleaning failed. *)
Definition failed {A} (r : list ErrorCode + A) : Prop :=
  match r with inl _ => True | inr _ => False end.

(** The fields of [ProductForm] that a request's body fails. *)
Definition offending (request : HttpRequest) (field : string) : Prop :=
  (field = "imagen" /\ failed (clean_imagen (POST request) (FILES request)))
  \/ (field = "nombre" /\ failed (clean_nombre (POST request)))
  \/ (field = "descripcion" /\ failed (clean_descripcion (POST request)))
  \/ (field = "precio" /\ failed (clean_precio (POST request))).

(** The error dict of the form bound to a request's body. *)
Definition request_errors (request : HttpRequest)
  : gmap string (list ErrorCode) :=
  collect_errors (clean_imagen (POST request) (FILES request))
    (clean_nombre (POST request)) (clean_descripcion (POST request))
    (clean_precio (POST request)).

(** An image upload the form accepts: none at all, or, with the clear
    box not ticked, a file with a name of 1 to 100 characters, some
    content, and Pillow's approval. *)
Definition imagen_acceptable (request : HttpRequest) : Prop :=
  match FILES request !! "imagen" with
  | None => True
  | Some f =>
      checkbox_value (POST request) "imagen-clear" = false
      /\ file_name f <> ""
      /\ (String.length (file_name f) <= 100)%nat
      /\ file_size f <> 0%N
      /\ is_image f = true
  end.

(** ** Sample data *)

Definition alice : UserModel :=
  {| pk := 1; username := "alice";
     check_password := fun raw => bool_decide (raw = "correct123");
     is_active := true; is_superuser := false;
     permissions := [add_productmodel] |}.

Definition bob : UserModel :=
  {| pk := 2; username := "bob";
     check_password := fun raw => bool_decide (raw = "hunter2");
     is_active := true; is_superuser := false;
     permissions := [] |}.

Definition widget_row : ProductRow :=
  {| row_id := 1; row_imagen := None; row_nombre := "Widget";
     row_descripcion := ""; row_precio := 1999;
     row_created_at := 900; row_updated_at := 900;
     row_created_by := 1; row_updated_by := 1; row_active := true |}.

Definition db_empty : Database := {| users := [alice; bob]; products := [] |}.
Definition db_widget : Database :=
  {| users := [alice; bob]; products := [widget_row] |}.

Definition session_of (k : nat) : Session :=
  {| auth_user_id := Some k; session_data := {[ "cart" := "3" ]} |}.

(** Nobody is logged in. *)
Definition env_anonymous : Env :=
  {| db := db_empty; session := empty_session; user := None;
     messages := []; now := 1000 |}.
(** Alice, who may add products, is logged in. *)
Definition env_alice : Env :=
  {| db := db_empty; session := session_of 1; user := Some alice;
     messages := []; now := 1000 |}.
(** Bob, who may not, is logged in. *)
Definition env_bob : Env :=
  {| db := db_empty; session := session_of 2; user := Some bob;
     messages := []; now := 1000 |}.
(** Alice is logged in and has created a product. *)
Definition env_widget : Env :=
  {| db := db_widget; session := session_of 1; user := Some alice;
     messages := []; now := 1000 |}.

Definition request_of (m p : string) (body : gmap string string)
  : HttpRequest :=
  {| method := m; path := p; POST := body; FILES := ∅ |}.

Definition get_login : HttpRequest := request_of "GET" "/login/" ∅.
Definition put_login : HttpRequest := request_of "PUT" "/login/" ∅.
Definition delete_logout : HttpRequest := request_of "DELETE" "/logout/" ∅.
Definition post_login_alice : HttpRequest :=
  request_of "POST" "/login/"
    {[ "username" := "alice"; "password" := "correct123" ]}.
Definition post_login_wrong : HttpRequest :=
  request_of "POST" "/login/"
    {[ "username" := "alice"; "password" := "guess" ]}.
Definition post_login_no_password : HttpRequest :=
  request_of "POST" "/login/" {[ "username" := "alice" ]}.
Definition post_widget : HttpRequest :=
  request_of "POST" "/create/"
    {[ "nombre" := "Widget"; "precio" := "19.99" ]}.
Definition post_nine_digits : HttpRequest :=
  request_of "POST" "/create/"
    {[ "nombre" := "Widget"; "precio" := "123456789.00" ]}.
Definition post_no_nombre : HttpRequest :=
  request_of "POST" "/create/" {[ "precio" := "19.99" ]}.
Definition long_name : string := Text.text (repeat "a"%char 101).
Definition post_long_name : HttpRequest :=
  request_of "POST" "/create/"
    {[ "nombre" := long_name; "precio" := "19.99" ]}.
Definition post_blank_name : HttpRequest :=
  request_of "POST" "/create/" {[ "nombre" := "   "; "precio" := "19.99" ]}.

(** ** Further definitions *)

(** [ProductModel.__str__] (products/models.py, lines 15-16) *)
Definition ProductModel_str (inst : ProductModel) : string := nombre inst.

(** The instance that the form bound to a request's body fills when
    it is cleaned. *)
Definition cleaned_instance (request : HttpRequest) : ProductModel :=
  instance (full_clean (ProductForm_bound (POST request) (FILES request))).

(** The row that [create_product] writes for user [u], the price being
    [cents] hundredths. *)
Definition new_row (request : HttpRequest) (e : Env) (u : UserModel)
    (cents : Z) : ProductRow :=
  {| row_id := next_id (db e);
     row_imagen := imagen (cleaned_instance request);
     row_nombre := nombre (cleaned_instance request);
     row_descripcion := descripcion (cleaned_instance request);
     row_precio := cents;
     row_created_at := now e; row_updated_at := now e;
     row_created_by := pk u; row_updated_by := pk u;
     row_active := true |}.

(** The same state at another time. *)
Definition with_now (t : N) (e : Env) : Env :=
  {| db := db e; session := session e; user := user e;
     messages := messages e; now := t |}.

(** The product rows have distinct primary keys. *)
Definition ids_unique (d : Database) : Prop :=
  List.NoDup (map row_id (products d)).

(** When [create_product] gets as far as saving: a POST, by a session
    user [u] who holds the permission, with a form free of errors. *)
Definition creates (request : HttpRequest) (e : Env) (u : UserModel) : Prop :=
  method request = "POST"
  /\ get_user (db e) (session e) = Some u
  /\ has_perm (Some u) add_productmodel = true
  /\ request_errors request = ∅.

(** The state after a request went through the request cycle. *)
Definition after (view : View) (request : HttpRequest) (e : Env) : Env :=
  (get_response view request e).2.

(** More sample data: Carol is a superuser without any permission of
    her own, Dave has left (his account is inactive). *)
Definition carol : UserModel :=
  {| pk := 3; username := "carol";
     check_password := fun raw => bool_decide (raw = "s3cret");
     is_active := true; is_superuser := true;
     permissions := [] |}.
Definition dave : UserModel :=
  {| pk := 4; username := "dave";
     check_password := fun raw => bool_decide (raw = "letmein");
     is_active := false; is_superuser := false;
     permissions := [add_productmodel] |}.
Definition db_four : Database :=
  {| users := [alice; bob; carol; dave]; products := [widget_row] |}.
Definition env_four (s : Session) : Env :=
  {| db := db_four; session := s; user := None; messages := []; now := 2000 |}.
Definition get_create : HttpRequest := request_of "GET" "/create/" ∅.
Definition put_create : HttpRequest := request_of "PUT" "/create/" ∅.
Definition post_gadget : HttpRequest :=
  request_of "POST" "/create/"
    {[ "nombre" := "  Gadget "; "precio" := "5"; "descripcion" := " new " ]}.

(** A fresh Widget instance stamped with Alice's key, as
    [create_product] hands it to [save]. *)
Definition widget_instance : ProductModel :=
  with_audit
    {| created_at := None; updated_at := None;
       created_by := Some 1%nat; updated_by := Some 1%nat; active := true |}
    (cleaned_instance post_widget).
(** The same instance after it was saved at time 1000. *)
Definition widget_saved : ProductModel :=
  with_audit
    {| created_at := Some 1000%N; updated_at := Some 1000%N;
       created_by := Some 1%nat; updated_by := Some 1%nat; active := true |}
    {| id := Some 1%nat; imagen := None; nombre := "Widget";
       descripcion := "";
       precio := Some (Finite false [1; 9; 9; 9]%nat (-2));
       audit := AuditModel_new |}.

(** * Theorems *)

(** ** Running the monad *)

Ltac run :=
  unfold mbind, M_bind, mret, M_ret, bind, ret, raise, get, modify in *;
  simpl in *.

Lemma method_is (request : HttpRequest) (m : string) :
  method request = m -> bool_decide (method request = m) = true.
Proof. intros H. by apply bool_decide_eq_true_2. Qed.

Lemma method_is_not (request : HttpRequest) (m : string) :
  method request <> m -> bool_decide (method request = m) = false.
Proof. intros H. by apply bool_decide_eq_false_2. Qed.

(** ** core/views.py: [login_view] *)

(** C6.  A GET to [login_view] answers "Already logged in" with status
    200 when the requester is authenticated, and renders the login
    form otherwise; nothing changes. *)
Theorem login_view_get (request : HttpRequest) (e : Env) :
  method request = "GET" ->
  login_view request e =
    (Ok (Some (if is_authenticated (user e)
               then Response "Already logged in" 200
               else Rendered "LoginView.html" ∅)), e).
Proof.
  intros Hm. unfold login_view. rewrite (method_is _ _ Hm). run.
  by destruct (user e).
Qed.

(** C10.  A request to [login_view] whose method is neither GET nor
    POST falls through both branches: the view returns [None] and
    changes nothing. *)
Theorem login_view_other_method (request : HttpRequest) (e : Env) :
  method request <> "GET" -> method request <> "POST" ->
  login_view request e = (Ok None, e).
Proof.
  intros Hg Hp. unfold login_view.
  by rewrite (method_is_not _ _ Hg), (method_is_not _ _ Hp).
Qed.

(** C9.  A POST to [login_view] without [username] or without
    [password] raises [MultiValueDictKeyError] for the first missing
    key; nothing changes (no session is established), and the handler
    answers with status 500. *)
Theorem login_view_missing_field (request : HttpRequest) (e : Env) :
  method request = "POST" ->
  POST request !! "username" = None \/ POST request !! "password" = None ->
  exists key,
    (key = "username" \/ key = "password")
    /\ POST request !! key = None
    /\ login_view request e = (Raised (MultiValueDictKeyError key), e)
    /\ status_code (get_response login_view request e).1 = 500%nat
    /\ session (get_response login_view request e).2 = session e.
Proof.
  intros Hm Hmiss.
  assert (Hg : method request <> "GET") by (rewrite Hm; discriminate).
  assert (Hrun : forall e0, exists key,
    (key = "username" \/ key = "password")
    /\ POST request !! key = None
    /\ login_view request e0 = (Raised (MultiValueDictKeyError key), e0)).
  { intros e0. unfold login_view.
    rewrite (method_is_not _ _ Hg), (method_is _ _ Hm).
    unfold getitem. run.
    destruct (POST request !! "username") as [name|] eqn:Hu.
    - destruct Hmiss as [Hmiss|Hmiss]; [discriminate|].
      exists "password". rewrite Hmiss. auto.
    - exists "username". auto. }
  destruct (Hrun e) as (key & Hkey & Hnone & Heq).
  exists key. repeat split; try done.
  - unfold get_response.
    destruct (Hrun (with_user (get_user (db e) (session e)) e))
      as (key' & _ & _ & ->). done.
  - unfold get_response.
    destruct (Hrun (with_user (get_user (db e) (session e)) e))
      as (key' & _ & _ & ->). done.
Qed.


(** With unique usernames, the lookup by name finds the user. *)
Lemma get_by_natural_key_unique (d : Database) (u : UserModel) :
  List.NoDup (map username (users d)) -> In u (users d) ->
  get_by_natural_key d (username u) = Some u.
Proof.
  unfold get_by_natural_key. induction (users d) as [|u0 us IH]; simpl.
  - intros _ [].
  - intros Hnd Hin. apply List.NoDup_cons_iff in Hnd as [Hfresh Hnd].
    destruct Hin as [->|Hin].
    + by rewrite bool_decide_eq_true_2.
    + rewrite bool_decide_eq_false_2; [by apply IH|].
      intros Heq. apply Hfresh. rewrite Heq. by apply in_map.
Qed.

(** A user found by name is a row of the table and has that name. *)
Lemma get_by_natural_key_Some (d : Database) (name : string) (u : UserModel) :
  get_by_natural_key d name = Some u -> In u (users d) /\ username u = name.
Proof.
  unfold get_by_natural_key. intros H. apply List.find_some in H as [Hin Hn].
  split; [done|]. by apply bool_decide_eq_true_1 in Hn.
Qed.

(** [authenticate] reads the state and leaves it alone. *)
Lemma authenticate_state (name pw : string) (e : Env) :
  (authenticate name pw e).2 = e.
Proof.
  unfold authenticate. run.
  destruct (get_by_natural_key (db e) name) as [u|]; [|done].
  by destruct (check_password u pw && user_can_authenticate u).
Qed.

(** C4.  A POST to [login_view] whose [username] and [password] match
    an existing active user (usernames being unique, as [AbstractUser]
    declares them) succeeds: the session is bound to that user,
    [request.user] is that user, a success message is recorded, and
    the response is "Login successful" with status 200. *)
Theorem login_view_success (request : HttpRequest) (e : Env)
    (u : UserModel) (pw : string) :
  method request = "POST" ->
  List.NoDup (map username (users (db e))) ->
  In u (users (db e)) ->
  POST request !! "username" = Some (username u) ->
  POST request !! "password" = Some pw ->
  check_password u pw = true ->
  is_active u = true ->
  exists e',
    login_view request e = (Ok (Some (Response "Login successful" 200)), e')
    /\ auth_user_id (session e') = Some (pk u)
    /\ user e' = Some u
    /\ messages e' = (messages e ++ [(SUCCESS, "Login successful")])%list
    /\ db e' = db e.
Proof.
  intros Hm Hnd Hin Hu Hp Hpw Hact.
  assert (Hg : method request <> "GET") by (rewrite Hm; discriminate).
  unfold login_view. rewrite (method_is_not _ _ Hg), (method_is _ _ Hm).
  unfold getitem, authenticate. rewrite Hu, Hp. run.
  rewrite (get_by_natural_key_unique _ _ Hnd Hin).
  unfold user_can_authenticate. rewrite Hpw, Hact. simpl.
  unfold login, messages_success. run.
  eexists. split; [reflexivity|]. by simpl.
Qed.

(** C5.  A POST to [login_view] whose credentials match no existing
    active user establishes no session: the session, [request.user]
    and the database stay as they were, the error "Invalid username or
    password" is recorded, and the response redirects to the URL named
    [login]. *)
Theorem login_view_failure (request : HttpRequest) (e : Env)
    (name pw : string) :
  method request = "POST" ->
  POST request !! "username" = Some name ->
  POST request !! "password" = Some pw ->
  (forall u, In u (users (db e)) -> username u = name ->
             check_password u pw = true -> is_active u = false) ->
  login_view request e =
    (Ok (Some (HttpResponseRedirect (UrlNamed "login"))),
     with_messages
       (messages e ++ [(ERROR, "Invalid username or password")])%list e).
Proof.
  intros Hm Hu Hp Hno.
  assert (Hg : method request <> "GET") by (rewrite Hm; discriminate).
  unfold login_view. rewrite (method_is_not _ _ Hg), (method_is _ _ Hm).
  unfold getitem, authenticate. rewrite Hu, Hp. run.
  destruct (get_by_natural_key (db e) name) as [u|] eqn:Hfind; run.
  - apply get_by_natural_key_Some in Hfind as [Hin Hname].
    unfold user_can_authenticate.
    destruct (check_password u pw) eqn:Hpw; simpl.
    + by rewrite (Hno u Hin Hname Hpw).
    + done.
  - done.
Qed.

(** ** core/views.py: [logout_view] *)

(** C7.  An authenticated request to [logout_view], whatever its
    method and whatever the session held, ends with an empty session
    and an anonymous [request.user], so that the next request is
    anonymous too, and is answered by a redirect to the URL named
    [login]. *)
Theorem logout_view_terminates_session (request : HttpRequest) (e : Env)
    (u : UserModel) :
  user e = Some u ->
  logout_view request e =
    (Ok (Some (HttpResponseRedirect (UrlNamed "login"))),
     with_user None (with_session empty_session e))
  /\ get_user (db (logout_view request e).2)
       (session (logout_view request e).2) = None.
Proof.
  intros Hu.
  assert (Heq : logout_view request e =
    (Ok (Some (HttpResponseRedirect (UrlNamed "login"))),
     with_user None (with_session empty_session e))).
  { unfold logout_view, login_required, user_passes_test, logout, redirect.
    run. by rewrite Hu. }
  split; [done|]. by rewrite Heq.
Qed.

(** ** products/views.py: the decorators of [create_product] *)

Lemma has_perms_single (u : option UserModel) (perm : string) :
  has_perms u [perm] = has_perm u perm.
Proof. unfold has_perms. simpl. by rewrite andb_true_r. Qed.

(** The decorators decide before the view runs: a requester without
    the permission never reaches the decorated view, whatever that
    view is. *)
Lemma guarded_rejects (view_func : View) (request : HttpRequest) (e : Env) :
  has_perm (user e) add_productmodel = false ->
  guarded view_func request e =
    if is_authenticated (user e)
    then (Raised PermissionDenied, e)
    else (Ok (Some (HttpResponseRedirect (LoginUrl (path request)))), e).
Proof.
  intros Hperm.
  unfold guarded, login_required, permission_required, user_passes_test.
  unfold mbind, M_bind, mret, M_ret, bind, ret, raise, get. cbv beta.
  destruct (is_authenticated (user e)) eqn:Hauth; [|done].
  by rewrite has_perms_single, Hperm.
Qed.

(** The decorators let a requester with the permission through. *)
Lemma guarded_accepts (view_func : View) (request : HttpRequest) (e : Env) :
  has_perm (user e) add_productmodel = true ->
  guarded view_func request e = view_func request e.
Proof.
  intros Hperm.
  unfold guarded, login_required, permission_required, user_passes_test.
  unfold mbind, M_bind, mret, M_ret, bind, ret, raise, get. cbv beta.
  destruct (is_authenticated (user e)) eqn:Hauth.
  - by rewrite has_perms_single, Hperm.
  - by destruct (user e).
Qed.

(** C1, as the code has it.  A request to [create_product] by a
    requester without the permission [products.add_productmodel] is
    rejected before the view body runs (the outcome is the same for
    any body, and nothing changes): an anonymous requester is
    redirected to the login URL, with status 302; an authenticated one
    gets [PermissionDenied], which the handler answers with status
    403. *)
Theorem create_product_rejects_unauthorized
    (request : HttpRequest) (e : Env) :
  has_perm (user e) add_productmodel = false ->
  (forall view_func, guarded view_func request e = create_product request e)
  /\ create_product request e =
       (if is_authenticated (user e)
        then (Raised PermissionDenied, e)
        else (Ok (Some (HttpResponseRedirect (LoginUrl (path request)))), e))
  /\ (user e = get_user (db e) (session e) ->
      status_code (get_response create_product request e).1 =
        if is_authenticated (user e) then 403%nat else 302%nat).
Proof.
  intros Hperm. split; [|split].
  - intros view_func. unfold create_product.
    by rewrite !guarded_rejects.
  - unfold create_product. by apply guarded_rejects.
  - intros Hmw. unfold get_response. rewrite <- Hmw.
    assert (He : with_user (user e) e = e) by by destruct e.
    rewrite He. unfold create_product.
    rewrite guarded_rejects by done. by destruct (user e).
Qed.

(** ** The audit invariant *)

Section Preservation.

Lemma preserves_ret {A} (a : A) : preserves_audit (mret a : M A).
Proof. by intros e He. Qed.

Lemma preserves_raise {A} (x : Exception) : preserves_audit (raise x : M A).
Proof. by intros e He. Qed.

Lemma preserves_get : preserves_audit get.
Proof. by intros e He. Qed.

Lemma preserves_modify (f : Env -> Env) :
  (forall e, db (f e) = db e) -> preserves_audit (modify f).
Proof. intros Hf e He. unfold modify. simpl. by rewrite Hf. Qed.

Lemma preserves_bind {A B} (m : M A) (k : A -> M B) :
  preserves_audit m -> (forall a, preserves_audit (k a)) ->
  preserves_audit (m ≫= k).
Proof.
  intros Hm Hk e He. unfold mbind, M_bind, bind.
  specialize (Hm e He). destruct (m e) as [[a|x] e1]; simpl in *.
  - by apply Hk.
  - done.
Qed.

(** [save] keeps the invariant: the row it writes refers to users
    it has looked up. *)
Lemma Model_save_preserves (inst : ProductModel) :
  preserves_audit (Model_save inst).
Proof.
  intros e He. unfold Model_save. run.
  destruct (precio inst) as [p|]; [|done].
  destruct (to_cents p) as [cents|]; [|done].
  destruct (if match id inst with
               | Some k => row_exists (db e) k
               | None => false
               end then created_at (audit inst) else Some (now e)) as [t|];
    [|done].
  destruct (created_by (audit inst)) as [c|]; [|done].
  destruct (updated_by (audit inst)) as [u|]; [|done].
  destruct (user_exists (db e) c) eqn:Hc; [|done].
  destruct (user_exists (db e) u) eqn:Hu; [|done].
  simpl. unfold audit_ok in *. simpl.
  set (row := {| row_id := _ |}).
  assert (Hrow : references_existing (with_products (products (db e)) (db e))
                   row) by done.
  destruct (match id inst with
            | Some k => row_exists (db e) k
            | None => false
            end).
  - apply List.Forall_map.
    eapply List.Forall_impl; [|exact He].
    intros r Hr. by destruct (bool_decide _).
  - apply List.Forall_app. split; [done|]. by constructor.
Qed.

(** A user that exists and is not the one deleted still exists. *)
Lemma user_exists_filter (us : list UserModel) (k c : nat) :
  c <> k ->
  existsb (fun u => bool_decide (pk u = c)) us = true ->
  existsb (fun u => bool_decide (pk u = c))
    (List.filter (fun u => negb (bool_decide (pk u = k))) us) = true.
Proof.
  intros Hne. induction us as [|u us IH]; simpl; [done|].
  intros H. apply orb_true_iff in H as [H|H].
  - apply bool_decide_eq_true_1 in H.
    rewrite (bool_decide_eq_false_2 (pk u = k)) by congruence. simpl.
    by rewrite bool_decide_eq_true_2.
  - destruct (negb (bool_decide (pk u = k))); simpl.
    + rewrite IH by done. by rewrite orb_true_r.
    + by apply IH.
Qed.

(** Deleting a user keeps the invariant: it only goes through when
    no product refers to the user. *)
Lemma UserModel_delete_preserves (k : nat) :
  preserves_audit (UserModel_delete k).
Proof.
  intros e He. unfold UserModel_delete. run.
  destruct (existsb (references k) (products (db e))) eqn:Href; [done|].
  simpl. unfold audit_ok in *. simpl.
  assert (Hnone : forall r, In r (products (db e)) -> references k r = false).
  { intros r Hr. destruct (references k r) eqn:Hk; [|done].
    assert (existsb (references k) (products (db e)) = true)
      by (apply existsb_exists; eauto).
    congruence. }
  apply List.Forall_forall. intros r Hr.
  pose proof (proj1 (List.Forall_forall _ _) He r Hr) as [Hc Hu].
  specialize (Hnone r Hr). unfold references in Hnone.
  apply orb_false_iff in Hnone as [Hk1 Hk2].
  apply bool_decide_eq_false_1 in Hk1, Hk2.
  split; unfold user_exists; simpl; by apply user_exists_filter.
Qed.

Lemma ProductForm_save_preserves (form : ProductForm) (commit : bool) :
  preserves_audit (ProductForm_save form commit).
Proof.
  unfold ProductForm_save. destruct (form_errors form) as [errs form'].
  destruct (bool_decide (errs = ∅)); [|apply preserves_raise].
  destruct commit; [|apply preserves_ret].
  apply preserves_bind; [apply Model_save_preserves|].
  intros inst. apply preserves_ret.
Qed.

Lemma set_created_by_preserves (u : option UserModel) (form : ProductForm) :
  preserves_audit (set_created_by u form).
Proof. destruct u; [apply preserves_ret | apply preserves_raise]. Qed.

Lemma set_updated_by_preserves (u : option UserModel) (form : ProductForm) :
  preserves_audit (set_updated_by u form).
Proof. destruct u; [apply preserves_ret | apply preserves_raise]. Qed.

Lemma authenticate_preserves (name pw : string) :
  preserves_audit (authenticate name pw).
Proof. intros e He. by rewrite authenticate_state. Qed.

(** One step of a proof that a computation keeps the invariant. *)
Ltac preserve :=
  first
    [ apply preserves_ret
    | apply preserves_raise
    | apply preserves_get
    | apply Model_save_preserves
    | apply ProductForm_save_preserves
    | apply set_created_by_preserves
    | apply set_updated_by_preserves
    | apply authenticate_preserves
    | apply preserves_modify; reflexivity
    | apply preserves_bind; [|intros ?] ].

Lemma user_passes_test_preserves (test_func : option UserModel -> M bool)
    (view_func : View) (request : HttpRequest) :
  (forall u, preserves_audit (test_func u)) ->
  preserves_audit (view_func request) ->
  preserves_audit (user_passes_test test_func view_func request).
Proof.
  intros Ht Hv. unfold user_passes_test.
  apply preserves_bind; [preserve|]. intros e.
  apply preserves_bind; [apply Ht|]. intros [|]; [done|preserve].
Qed.

Lemma login_required_preserves (view_func : View) (request : HttpRequest) :
  preserves_audit (view_func request) ->
  preserves_audit (login_required view_func request).
Proof.
  intros Hv. apply user_passes_test_preserves; [|done]. intros u. preserve.
Qed.

Lemma permission_required_preserves (perm : string) (raise_exception : bool)
    (view_func : View) (request : HttpRequest) :
  preserves_audit (view_func request) ->
  preserves_audit
    (permission_required perm raise_exception view_func request).
Proof.
  intros Hv. apply user_passes_test_preserves; [|done]. intros u.
  destruct (has_perms u [perm]); [preserve|].
  destruct raise_exception; preserve.
Qed.

Lemma login_view_preserves (request : HttpRequest) :
  preserves_audit (login_view request).
Proof.
  unfold login_view.
  destruct (bool_decide (method request = "GET")).
  { apply preserves_bind; [preserve|]. intros e.
    destruct (is_authenticated (user e)); repeat preserve. }
  destruct (bool_decide (method request = "POST")); [|preserve].
  unfold getitem.
  apply preserves_bind; [destruct (POST request !! "username"); preserve|].
  intros name.
  apply preserves_bind; [destruct (POST request !! "password"); preserve|].
  intros pw.
  apply preserves_bind; [preserve|]. intros [u|];
    unfold login, messages_success, messages_error, redirect;
    repeat preserve.
Qed.

Lemma logout_view_preserves (request : HttpRequest) :
  preserves_audit (logout_view request).
Proof.
  unfold logout_view. apply login_required_preserves.
  unfold logout, redirect. repeat preserve.
Qed.

Lemma create_product_body_preserves (request : HttpRequest) :
  preserves_audit (create_product_body request).
Proof.
  unfold create_product_body, render.
  destruct (bool_decide (method request = "GET")); [repeat preserve|].
  destruct (bool_decide (method request = "POST")); [|preserve].
  destruct (is_valid _) as [valid form].
  preserve; [|repeat preserve].
  destruct valid; unfold messages_success, messages_error; repeat preserve.
Qed.

Lemma create_product_preserves (request : HttpRequest) :
  preserves_audit (create_product request).
Proof.
  unfold create_product, guarded.
  apply login_required_preserves, permission_required_preserves.
  apply create_product_body_preserves.
Qed.

End Preservation.

(** The handler adds nothing to what the view did to the database. *)
Lemma get_response_db (view : View) (request : HttpRequest) (e : Env) :
  db (get_response view request e).2 =
  db (view request (with_user (get_user (db e) (session e)) e)).2.
Proof.
  unfold get_response.
  destruct (view request _) as [[[r|]|x] e']; [done|done|by destruct x].
Qed.

(** [save] refuses an instance without [created_by] or [updated_by],
    and writes nothing. *)
Lemma Model_save_requires_users (inst : ProductModel) (e : Env) :
  created_by (audit inst) = None \/ updated_by (audit inst) = None ->
  exists x, Model_save inst e = (Raised x, e).
Proof.
  intros Hnull. unfold Model_save. run.
  destruct (precio inst) as [p|]; [|by eexists].
  destruct (to_cents p) as [cents|]; [|by eexists].
  destruct (if match id inst with
               | Some k => row_exists (db e) k
               | None => false
               end then created_at (audit inst) else Some (now e)) as [t|];
    [|by eexists].
  destruct (created_by (audit inst)) as [c|]; [|by eexists].
  destruct (updated_by (audit inst)) as [u|]; [|by eexists].
  by destruct Hnull.
Qed.

(** C8.  Starting from a database in which every product row refers
    to existing users, every operation of the project ([login_view],
    [logout_view], [create_product], run directly or through the
    request cycle) leaves such a database; [save] refuses a product
    whose [created_by] or [updated_by] is unset and otherwise keeps the
    invariant; and deleting a user to whom a product refers is blocked
    with [ProtectedError], a deletion that goes through keeping the
    invariant. *)
Theorem audit_references_invariant (request : HttpRequest) (e : Env) :
  audit_ok (db e) ->
  (forall view, In view [login_view; logout_view; create_product] ->
     audit_ok (db (view request e).2)
     /\ audit_ok (db (get_response view request e).2))
  /\ (forall inst,
        created_by (audit inst) = None \/ updated_by (audit inst) = None ->
        exists x, Model_save inst e = (Raised x, e))
  /\ (forall inst, audit_ok (db (Model_save inst e).2))
  /\ (forall k, existsb (references k) (products (db e)) = true ->
        UserModel_delete k e = (Raised ProtectedError, e))
  /\ (forall k, audit_ok (db (UserModel_delete k e).2)).
Proof.
  intros He. repeat split.
  - destruct H as [<-|[<-|[<-|[]]]].
    + by apply login_view_preserves.
    + by apply logout_view_preserves.
    + by apply create_product_preserves.
  - rewrite get_response_db.
    destruct H as [<-|[<-|[<-|[]]]].
    + by apply login_view_preserves.
    + by apply logout_view_preserves.
    + by apply create_product_preserves.
  - intros inst. apply Model_save_requires_users.
  - intros inst. by apply Model_save_preserves.
  - intros k Href. unfold UserModel_delete. run. by rewrite Href.
  - intros k. by apply UserModel_delete_preserves.
Qed.

(** ** Text and decimals *)

(** What [Decimal(str)] makes of some texts. *)
Example of_string_price :
  of_string "19.99" = Some (Finite false [1; 9; 9; 9]%nat (-2)).
Proof. reflexivity. Qed.

Example of_string_signed_exponent :
  of_string " -0019.5e3 " = Some (Finite true [1; 9; 5]%nat 2).
Proof. reflexivity. Qed.

Example of_string_zero_keeps_exponent :
  of_string "0.000" = Some (Finite false [O] (-3)).
Proof. reflexivity. Qed.

Example of_string_underscores :
  of_string "1_000.5" = Some (Finite false [1; 0; 0; 0; 5]%nat (-1)).
Proof. reflexivity. Qed.

Example of_string_specials :
  of_string "-Infinity" = Some (Infinity true) /\ of_string "sNaN12" = Some NaN.
Proof. split; reflexivity. Qed.

Example of_string_rejects :
  of_string "." = None /\ of_string "1e" = None /\ of_string "abc" = None
  /\ of_string "" = None /\ of_string "12,50" = None.
Proof. repeat split; reflexivity. Qed.

Example to_cents_rounds_half_even :
  to_cents (Finite false [1; 2; 5]%nat (-3)) = Some 12
  /\ to_cents (Finite false [1; 3; 5]%nat (-3)) = Some 14.
Proof. split; reflexivity. Qed.

Lemma chars_text (l : list ascii) : Text.chars (Text.text l) = l.
Proof. apply list_ascii_of_string_of_list_ascii. Qed.

Lemma lstrip_In (c : ascii) (l : list ascii) :
  In c (Text.lstrip l) -> In c l.
Proof.
  induction l as [|c0 l IH]; simpl; [done|].
  destruct (Text.is_space c0); [by right; apply IH | done].
Qed.

Lemma strip_chars_In (c : ascii) (l : list ascii) :
  In c (Text.strip_chars l) -> In c l.
Proof.
  unfold Text.strip_chars. intros H.
  apply in_rev, lstrip_In, in_rev, lstrip_In in H. done.
Qed.

(** Stripping brings no NUL into a text. *)
Lemma has_nul_strip (s : string) :
  Text.has_nul s = false -> Text.has_nul (Text.strip s) = false.
Proof.
  unfold Text.has_nul, Text.strip. rewrite chars_text. intros H.
  destruct (existsb _ (Text.strip_chars _)) eqn:Hex; [|done].
  apply existsb_exists in Hex as (c & Hin & Hc).
  apply strip_chars_In in Hin.
  assert (existsb (fun c => (Text.code c =? 0)%nat) (Text.chars s) = true)
    by (apply existsb_exists; eauto).
  congruence.
Qed.

Lemma span_digits_values (l : list ascii) :
  Forall is_digit_value (span_digits l).1.
Proof.
  induction l as [|c l IH]; simpl; [constructor|].
  destruct (Text.is_digit c) eqn:Hd; [|constructor].
  destruct (span_digits l) as [ds r]. simpl in *. constructor; [|done].
  unfold Text.is_digit in Hd. apply andb_true_iff in Hd as [_ Hd].
  apply Nat.leb_le in Hd. unfold is_digit_value, Text.digit_value. lia.
Qed.

Lemma drop_zeros_values (ds : list nat) :
  Forall is_digit_value ds -> Forall is_digit_value (drop_zeros ds).
Proof.
  induction 1 as [|d ds Hd Hds IH]; [constructor|].
  destruct d; simpl; [done|by constructor].
Qed.

Lemma coefficient_values (ds : list nat) :
  Forall is_digit_value ds -> Forall is_digit_value (coefficient ds).
Proof.
  intros H. unfold coefficient.
  pose proof (drop_zeros_values ds H) as H'.
  destruct (drop_zeros ds); [|done].
  constructor; [unfold is_digit_value; lia | constructor].
Qed.

Lemma parse_number_values (neg neg' : bool) (l : list ascii)
    (ds : list nat) (ex : Z) :
  parse_number neg l = Some (Finite neg' ds ex) -> Forall is_digit_value ds.
Proof.
  unfold parse_number.
  pose proof (span_digits_values l) as Hip.
  destruct (span_digits l) as [ip r1]. simpl in Hip.
  assert (Hfp : forall fp r2,
    match r1 with
    | c :: r => if (Text.code c =? 46)%nat then span_digits r else ([], r1)
    | [] => ([], r1)
    end = (fp, r2) -> Forall is_digit_value fp).
  { intros fp r2. destruct r1 as [|c r].
    - intros [= <- _]. constructor.
    - destruct (Text.code c =? 46)%nat.
      + intros Heq. pose proof (span_digits_values r) as H.
        by rewrite Heq in H.
      + intros [= <- _]. constructor. }
  destruct (match r1 with [] => _ | _ => _ end) as [fp r2].
  specialize (Hfp fp r2 eq_refl).
  assert (Hall : Forall is_digit_value (coefficient (ip ++ fp)))
    by (apply coefficient_values, Forall_app; done).
  destruct ip, fp; try done;
    (destruct (parse_exponent r2); [|done]); by intros [= _ <- _].
Qed.

Lemma parse_special_not_finite (neg neg' : bool) (l : list ascii)
    (ds : list nat) (ex : Z) :
  parse_special neg l <> Some (Finite neg' ds ex).
Proof.
  unfold parse_special.
  destruct (_ || _); [done|].
  destruct (match Text.chars _ with [] => _ | _ => _ end)
    as [|n [|a [|n' diag]]]; try done.
  by destruct (_ && _).
Qed.

(** The digits of a parsed number are decimal digits. *)
Lemma of_string_values (s : string) (neg : bool) (ds : list nat) (ex : Z) :
  of_string s = Some (Finite neg ds ex) -> Forall is_digit_value ds.
Proof.
  unfold of_string. destruct (parse_sign _) as [sg body].
  destruct (parse_number sg body) as [d|] eqn:Hnum.
  - intros [= ->]. by eapply parse_number_values.
  - intros H. by apply parse_special_not_finite in H.
Qed.

Lemma int_of_digits_acc (ds : list nat) (acc : Z) :
  Forall is_digit_value ds -> 0 <= acc ->
  0 <= fold_left (fun a d => 10 * a + Z.of_nat d) ds acc
    < (acc + 1) * 10 ^ Z.of_nat (List.length ds).
Proof.
  intros Hds. revert acc. induction Hds as [|d ds Hd Hds IH]; intros acc Hacc.
  - simpl. lia.
  - cbn [fold_left List.length]. unfold is_digit_value in Hd.
    specialize (IH (10 * acc + Z.of_nat d) ltac:(lia)).
    rewrite Nat2Z.inj_succ, Z.pow_succ_r by lia.
    split; [lia|].
    eapply Z.lt_le_trans; [apply IH|].
    assert (0 < 10 ^ Z.of_nat (List.length ds)) by (apply Z.pow_pos_nonneg; lia).
    nia.
Qed.

(** A tuple of [n] decimal digits reads as a number below [10 ^ n]. *)
Lemma int_of_digits_bound (ds : list nat) :
  Forall is_digit_value ds ->
  0 <= int_of_digits ds < 10 ^ Z.of_nat (List.length ds).
Proof.
  intros H. pose proof (int_of_digits_acc ds 0 H ltac:(lia)) as Hb.
  unfold int_of_digits. lia.
Qed.

Ltac split_ltb :=
  match goal with
  | |- context [ (?a <? ?b) ] => destruct (Z.ltb_spec a b); try lia
  end.

(** A number with at most two decimal places and at most eight digits
    before the point passes [DecimalValidator(10, 2)]. *)
Lemma DecimalValidator_accepts (neg : bool) (ds : list nat) (ex : Z) :
  -2 <= ex -> Z.of_nat (List.length ds) + ex <= 8 ->
  DecimalValidator 10 2 (Finite neg ds ex) = None.
Proof.
  intros Hex Hwhole. unfold DecimalValidator.
  destruct (Z.leb_spec 0 ex) as [Hnonneg|Hnegative].
  - destruct (bool_decide (ds = [O])) eqn:Hzero.
    + apply bool_decide_eq_true_1 in Hzero. subst ds. reflexivity.
    + cbv beta iota zeta. repeat split_ltb. reflexivity.
  - destruct (Z.ltb_spec (Z.of_nat (List.length ds)) (Z.abs ex));
      cbv beta iota zeta; repeat split_ltb; reflexivity.
Qed.

(** Such a number fits the column, and is stored as its value in
    hundredths. *)
Lemma to_cents_fits (neg : bool) (ds : list nat) (ex : Z) :
  Forall is_digit_value ds ->
  -2 <= ex -> Z.of_nat (List.length ds) + ex <= 8 ->
  to_cents (Finite neg ds ex) =
    Some (if neg then - (int_of_digits ds * 10 ^ (ex + 2))
          else int_of_digits ds * 10 ^ (ex + 2)).
Proof.
  intros Hds Hex Hwhole. unfold to_cents.
  destruct (Z.leb_spec 0 (ex + 2)); [|lia].
  pose proof (int_of_digits_bound ds Hds) as [Hlo Hhi].
  assert (Hp : 0 < 10 ^ (ex + 2)) by (apply Z.pow_pos_nonneg; lia).
  assert (Hlt : int_of_digits ds * 10 ^ (ex + 2) < 10 ^ 10).
  { eapply Z.lt_le_trans.
    - apply Z.mul_lt_mono_pos_r; [exact Hp | exact Hhi].
    - rewrite <- Z.pow_add_r by lia. apply Z.pow_le_mono_r; lia. }
  destruct (Z.ltb_spec (int_of_digits ds * 10 ^ (ex + 2)) (10 ^ 10)); [done|lia].
Qed.

(** ** Cleaning the fields of [ProductForm] *)

Lemma clean_nombre_missing (d : gmap string string) :
  d !! "nombre" = None -> clean_nombre d = inl [e_required].
Proof. intros H. unfold clean_nombre. by rewrite H. Qed.

Lemma clean_nombre_ok (d : gmap string string) (v : string) :
  d !! "nombre" = Some v ->
  Text.strip v <> "" ->
  (String.length (Text.strip v) <= 100)%nat ->
  Text.has_nul v = false ->
  clean_nombre d = inr (Text.strip v).
Proof.
  intros Hv Hne Hlen Hnul. unfold clean_nombre, CharField_clean.
  rewrite Hv. cbv zeta.
  rewrite bool_decide_eq_false_2 by done.
  rewrite (proj2 (Nat.ltb_ge _ _) Hlen).
  by rewrite (has_nul_strip _ Hnul).
Qed.

Lemma clean_descripcion_ok (d : gmap string string) :
  (forall t, d !! "descripcion" = Some t -> Text.has_nul t = false) ->
  exists t, clean_descripcion d = inr t.
Proof.
  intros Hnul. unfold clean_descripcion, CharField_clean.
  destruct (d !! "descripcion") as [t|] eqn:Ht; cbv zeta.
  - destruct (bool_decide (Text.strip t = "")); [by eexists|].
    rewrite (has_nul_strip _ (Hnul t eq_refl)). by eexists.
  - by eexists.
Qed.

Lemma clean_imagen_ok (request : HttpRequest) :
  imagen_acceptable request ->
  exists c, clean_imagen (POST request) (FILES request) = inr c.
Proof.
  unfold imagen_acceptable, clean_imagen, file_widget_value.
  destruct (FILES request !! "imagen") as [f|].
  - intros (Hbox & Hname & Hlen & Hsize & Himg).
    change ("imagen" +:+ "-clear") with "imagen-clear". rewrite Hbox.
    unfold ImageField_clean.
    rewrite (proj2 (Nat.ltb_ge _ _) Hlen).
    rewrite bool_decide_eq_false_2 by done.
    rewrite (proj2 (N.eqb_neq _ _) Hsize), Himg. by eexists.
  - intros _. destruct (checkbox_value _ _); by eexists.
Qed.

Lemma clean_precio_ok (d : gmap string string) (p : string)
    (neg : bool) (ds : list nat) (ex : Z) :
  d !! "precio" = Some p ->
  of_string p = Some (Finite neg ds ex) ->
  -2 <= ex -> Z.of_nat (List.length ds) + ex <= 8 ->
  clean_precio d = inr (Some (Finite neg ds ex)).
Proof.
  intros Hp Hparse Hex Hwhole. unfold clean_precio, DecimalField_clean.
  rewrite Hp. cbv zeta.
  assert (Hne : p <> "") by (intros ->; discriminate Hparse).
  rewrite bool_decide_eq_false_2 by done.
  cbn [mbind option_bind]. rewrite Hparse. cbn [is_finite negb].
  by rewrite DecimalValidator_accepts.
Qed.

(** A value that does not read as a number leaves an error on
    [precio]. *)
Lemma clean_precio_not_a_number (d : gmap string string) :
  ~ parses_as_number (d !! "precio") ->
  exists c, clean_precio d = inl [c].
Proof.
  intros Hnot. unfold clean_precio, DecimalField_clean. cbv zeta.
  destruct (d !! "precio") as [p|] eqn:Hp; [|by eexists].
  destruct (bool_decide (p = "")); [by eexists|].
  cbn [mbind option_bind].
  destruct (of_string p) as [[neg ds ex| |]|] eqn:Hparse; try by eexists.
  exfalso. apply Hnot. exists neg, ds, ex. exact Hparse.
Qed.

(** ** The error dict *)

Ltac split_decide :=
  match goal with
  | |- context [ decide (?a = ?b) ] => destruct (decide (a = b)) as [?|?]
  end.

Lemma lookup_add_error {A} (field other : string) (r : list ErrorCode + A)
    (m : gmap string (list ErrorCode)) :
  add_error field r m !! other =
    match r with
    | inl errs => if decide (field = other) then Some errs else m !! other
    | inr _ => m !! other
    end.
Proof. destruct r; simpl; [apply lookup_insert|done]. Qed.

(** A field has an entry in the error dict exactly when its cleaning
    failed. *)
Lemma collect_errors_lookup
    (ci : list ErrorCode + FileCleaned) (cn cd : list ErrorCode + string)
    (cp : list ErrorCode + option Decimal) (field : string) :
  is_Some (collect_errors ci cn cd cp !! field) <->
    (field = "imagen" /\ failed ci) \/ (field = "nombre" /\ failed cn)
    \/ (field = "descripcion" /\ failed cd) \/ (field = "precio" /\ failed cp).
Proof.
  unfold collect_errors. rewrite !lookup_add_error, lookup_empty.
  destruct ci, cn, cd, cp; simpl; repeat split_decide;
    rewrite ?is_Some_alt; intuition (auto 6; congruence).
Qed.

Lemma collect_errors_nombre
    (ci : list ErrorCode + FileCleaned) (cd : list ErrorCode + string)
    (cp : list ErrorCode + option Decimal) (errs : list ErrorCode) :
  collect_errors ci (inl errs) cd cp !! "nombre" = Some errs.
Proof.
  unfold collect_errors. rewrite !lookup_add_error.
  destruct cp, cd; by repeat split_decide.
Qed.

Lemma collect_errors_precio
    (ci : list ErrorCode + FileCleaned) (cn cd : list ErrorCode + string)
    (errs : list ErrorCode) :
  collect_errors ci cn cd (inl errs) !! "precio" = Some errs.
Proof. unfold collect_errors. rewrite lookup_add_error. by split_decide. Qed.

(** ** products/views.py: the body of [create_product] *)

(** A POST whose form has errors: nothing is saved, the error message
    is recorded, and the cleaned form is rendered. *)
Lemma create_product_body_invalid (request : HttpRequest) (e : Env) :
  method request = "POST" ->
  request_errors request <> ∅ ->
  create_product_body request e =
    (Ok (Some (Rendered "ProductForm.html"
                 {[ "form" := full_clean (ProductForm_bound (POST request)
                                            (FILES request)) ]})),
     with_messages (messages e ++ [(ERROR, "Error creating product")])%list e).
Proof.
  intros Hm Herrs.
  assert (Hg : method request <> "GET") by (rewrite Hm; discriminate).
  unfold create_product_body.
  rewrite (method_is_not _ _ Hg), (method_is _ _ Hm).
  unfold is_valid, form_errors.
  cbn [is_bound errors ProductForm_bound full_clean data files default].
  rewrite bool_decide_eq_false_2 by done.
  reflexivity.
Qed.

(** Running a bind whose first part ends normally. *)
Lemma run_bind {A B} (m : M A) (k : A -> M B) (e e' : Env) (a : A) :
  m e = (Ok a, e') -> (m ≫= k) e = k a e'.
Proof. intros H. unfold mbind, M_bind, bind. by rewrite H. Qed.

(** [save] of a fresh, complete instance appends one row. *)
Lemma Model_save_insert (inst : ProductModel) (e : Env) (p : Decimal)
    (cents : Z) (c u : nat) :
  id inst = None ->
  precio inst = Some p ->
  to_cents p = Some cents ->
  created_by (audit inst) = Some c ->
  updated_by (audit inst) = Some u ->
  user_exists (db e) c = true ->
  user_exists (db e) u = true ->
  Model_save inst e =
    (Ok {| id := Some (next_id (db e)); imagen := imagen inst;
           nombre := nombre inst; descripcion := descripcion inst;
           precio := Some p;
           audit := {| created_at := Some (now e);
                       updated_at := Some (now e);
                       created_by := Some c; updated_by := Some u;
                       active := active (audit inst) |} |},
     with_db
       (with_products
          (products (db e)
           ++ [ {| row_id := next_id (db e); row_imagen := imagen inst;
                   row_nombre := nombre inst;
                   row_descripcion := descripcion inst;
                   row_precio := cents;
                   row_created_at := now e; row_updated_at := now e;
                   row_created_by := c; row_updated_by := u;
                   row_active := active (audit inst) |} ])%list (db e)) e).
Proof.
  intros Hid Hp Hcents Hc Hu Hec Heu.
  unfold Model_save, mbind, M_bind, bind, get. cbv beta iota.
  rewrite Hid, Hp, Hcents, Hc, Hu, Hec, Heu. reflexivity.
Qed.

(** A POST whose form is valid, by a user of the user table: one row
    is appended, stamped with that user, the success message is
    recorded, and the form is rendered without errors. *)
Lemma create_product_body_valid (request : HttpRequest) (e : Env)
    (u : UserModel) (ci : FileCleaned) (n t : string) (dec : Decimal)
    (cents : Z) :
  method request = "POST" ->
  user e = Some u ->
  user_exists (db e) (pk u) = true ->
  clean_imagen (POST request) (FILES request) = inr ci ->
  clean_nombre (POST request) = inr n ->
  clean_descripcion (POST request) = inr t ->
  clean_precio (POST request) = inr (Some dec) ->
  to_cents dec = Some cents ->
  exists row form,
    create_product_body request e =
      (Ok (Some (Rendered "ProductForm.html" {[ "form" := form ]})),
       with_messages
         (messages e ++ [(SUCCESS, "Product created successfully")])%list
         (with_db (with_products (products (db e) ++ [row])%list (db e)) e))
    /\ errors form = Some ∅
    /\ id (instance form) = Some (row_id row)
    /\ row_created_by row = pk u
    /\ row_updated_by row = pk u
    /\ row_active row = true
    /\ row_nombre row = n
    /\ row_precio row = cents.
Proof.
  intros Hm Hu Hex Hci Hn Ht Hp Hcents.
  assert (Hg : method request <> "GET") by (rewrite Hm; discriminate).
  unfold create_product_body.
  rewrite (method_is_not _ _ Hg), (method_is _ _ Hm).
  unfold is_valid, form_errors.
  cbn [is_bound errors ProductForm_bound full_clean data files default].
  rewrite Hci, Hn, Ht, Hp.
  change (collect_errors (inr ci) (inr n) (inr t) (inr (Some dec)))
    with (∅ : gmap string (list ErrorCode)).
  rewrite bool_decide_eq_true_2 by done.
  eexists _, _. split.
  - erewrite run_bind; [reflexivity|].
    erewrite run_bind; [|reflexivity].
    erewrite run_bind; [|reflexivity].
    erewrite run_bind; [|by rewrite Hu].
    erewrite run_bind; [|reflexivity].
    erewrite run_bind; [|by rewrite Hu].
    erewrite run_bind.
    2:{ unfold ProductForm_save, form_errors.
        cbn [errors with_instance instance].
        rewrite bool_decide_eq_true_2 by done.
        erewrite run_bind; [reflexivity|].
        by eapply Model_save_insert. }
    reflexivity.
  - by cbn.
Qed.

(** The user the middleware finds is a row of the user table. *)
Lemma get_user_exists (d : Database) (s : Session) (u : UserModel) :
  get_user d s = Some u -> user_exists d (pk u) = true.
Proof.
  unfold get_user, get_by_pk, user_exists.
  destruct (auth_user_id s) as [k|]; [|done].
  destruct (List.find _ (users d)) as [u'|] eqn:Hfind; [|done].
  destruct (user_can_authenticate u'); [|done]. intros [= ->].
  apply List.find_some in Hfind as [Hin _].
  apply existsb_exists. exists u. split; [done|].
  by apply bool_decide_eq_true_2.
Qed.

(** What the request cycle does around [create_product] for a
    requester who holds the permission. *)
Lemma get_response_create_product (request : HttpRequest) (e : Env)
    (u : UserModel) :
  get_user (db e) (session e) = Some u ->
  has_perm (Some u) add_productmodel = true ->
  get_response create_product request e =
    match create_product_body request (with_user (Some u) e) with
    | (Ok (Some r), e') => (r, e')
    | (Ok None, e') => (Response "<h1>Server Error (500)</h1>" 500, e')
    | (Raised PermissionDenied, e') =>
        (Response "<h1>403 Forbidden</h1>" 403, e')
    | (Raised _, e') => (Response "<h1>Server Error (500)</h1>" 500, e')
    end.
Proof.
  intros Hu Hperm. unfold get_response, create_product.
  rewrite Hu. by rewrite guarded_accepts.
Qed.

(** C2, as the code has it.  A POST to [create_product] by an
    authenticated user who holds the permission, with a [nombre] that,
    once stripped, is not empty, has at most 100 characters and no NUL,
    a [precio] that reads as a number with at most two decimal places
    and at most eight digits before the point, a [descripcion] without
    NUL and an acceptable image (or none), persists exactly one
    product row: [created_by] and [updated_by] are the requesting
    user, [active] is true, the name and the price are those
    submitted; the success message is recorded and the form is
    rendered without errors. *)
Theorem create_product_persists (request : HttpRequest) (e : Env)
    (u : UserModel) (v p : string) (neg : bool) (ds : list nat) (ex : Z) :
  method request = "POST" ->
  get_user (db e) (session e) = Some u ->
  has_perm (Some u) add_productmodel = true ->
  POST request !! "nombre" = Some v ->
  Text.strip v <> "" ->
  (String.length (Text.strip v) <= 100)%nat ->
  Text.has_nul v = false ->
  POST request !! "precio" = Some p ->
  of_string p = Some (Finite neg ds ex) ->
  -2 <= ex ->
  Z.of_nat (List.length ds) + ex <= 8 ->
  (forall t, POST request !! "descripcion" = Some t ->
             Text.has_nul t = false) ->
  imagen_acceptable request ->
  exists row form,
    (get_response create_product request e).1 =
      Rendered "ProductForm.html" {[ "form" := form ]}
    /\ errors form = Some ∅
    /\ products (db (get_response create_product request e).2) =
         (products (db e) ++ [row])%list
    /\ users (db (get_response create_product request e).2) = users (db e)
    /\ row_created_by row = pk u
    /\ row_updated_by row = pk u
    /\ row_active row = true
    /\ row_nombre row = Text.strip v
    /\ to_cents (Finite neg ds ex) = Some (row_precio row)
    /\ messages (get_response create_product request e).2 =
         (messages e ++ [(SUCCESS, "Product created successfully")])%list.
Proof.
  intros Hm Hu Hperm Hv Hne Hlen Hnul Hp Hparse Hex Hwhole Hdesc Himg.
  rewrite (get_response_create_product _ _ _ Hu Hperm).
  destruct (clean_imagen_ok _ Himg) as [ci Hci].
  destruct (clean_descripcion_ok _ Hdesc) as [t Ht].
  pose proof (to_cents_fits neg ds ex (of_string_values _ _ _ _ Hparse)
                Hex Hwhole) as Hcents.
  destruct (create_product_body_valid request (with_user (Some u) e) u
              ci (Text.strip v) t (Finite neg ds ex) _
              Hm eq_refl (get_user_exists _ _ _ Hu) Hci
              (clean_nombre_ok _ _ Hv Hne Hlen Hnul) Ht
              (clean_precio_ok _ _ _ _ _ Hp Hparse Hex Hwhole) Hcents)
    as (row & form & Hrun & Herr & _ & Hc & Hup & Hact & Hnom & Hpre).
  rewrite Hrun. exists row, form.
  rewrite Hcents, Hpre. by repeat split.
Qed.

(** C3, as the code has it.  A POST to [create_product] by an
    authenticated user who holds the permission, whose body lacks
    [nombre] or whose [precio] does not read as a number, persists
    nothing: database and session stay as they were, the error message
    is recorded, and the form is rendered again, bound to the submitted
    data and files, with an error entry for [nombre] when it is missing,
    for [precio] when it is not a number, and in all for exactly the
    fields whose cleaning failed. *)
Theorem create_product_invalid_rerenders (request : HttpRequest) (e : Env)
    (u : UserModel) :
  method request = "POST" ->
  get_user (db e) (session e) = Some u ->
  has_perm (Some u) add_productmodel = true ->
  POST request !! "nombre" = None
    \/ ~ parses_as_number (POST request !! "precio") ->
  exists form errs,
    (get_response create_product request e).1 =
      Rendered "ProductForm.html" {[ "form" := form ]}
    /\ is_bound form = true
    /\ data form = POST request
    /\ files form = FILES request
    /\ errors form = Some errs
    /\ (POST request !! "nombre" = None ->
        errs !! "nombre" = Some [e_required])
    /\ (~ parses_as_number (POST request !! "precio") ->
        exists c, errs !! "precio" = Some [c])
    /\ (forall field, is_Some (errs !! field) <-> offending request field)
    /\ db (get_response create_product request e).2 = db e
    /\ session (get_response create_product request e).2 = session e
    /\ messages (get_response create_product request e).2 =
         (messages e ++ [(ERROR, "Error creating product")])%list.
Proof.
  intros Hm Hu Hperm Hbad.
  rewrite (get_response_create_product _ _ _ Hu Hperm).
  assert (Hnombre : POST request !! "nombre" = None ->
                    request_errors request !! "nombre" = Some [e_required]).
  { intros Hmiss. unfold request_errors.
    rewrite (clean_nombre_missing _ Hmiss). apply collect_errors_nombre. }
  assert (Hprecio : ~ parses_as_number (POST request !! "precio") ->
                    exists c, request_errors request !! "precio" = Some [c]).
  { intros Hnot. destruct (clean_precio_not_a_number _ Hnot) as [c Hc].
    exists c. unfold request_errors. rewrite Hc.
    apply collect_errors_precio. }
  assert (Hne : request_errors request <> ∅).
  { intros Hempty. destruct Hbad as [Hmiss|Hnot].
    - apply Hnombre in Hmiss. by rewrite Hempty, lookup_empty in Hmiss.
    - apply Hprecio in Hnot as [c Hc].
      by rewrite Hempty, lookup_empty in Hc. }
  rewrite (create_product_body_invalid _ _ Hm Hne).
  exists (full_clean (ProductForm_bound (POST request) (FILES request))),
    (request_errors request).
  repeat split; try done.
  - by apply collect_errors_lookup.
  - by apply collect_errors_lookup.
Qed.

(** * The theorems at work on the sample data *)

(** C1 as stated fails for an anonymous requester: the POST is
    answered by a redirect to the login URL (status 302), not by
    [PermissionDenied]. *)
Lemma create_product_anonymous_is_redirected :
  is_authenticated (user env_anonymous) = false
  /\ create_product post_widget env_anonymous =
       (Ok (Some (HttpResponseRedirect (LoginUrl "/create/"))), env_anonymous)
  /\ (create_product post_widget env_anonymous).1 <> Raised PermissionDenied
  /\ status_code (get_response create_product post_widget env_anonymous).1
       = 302%nat.
Proof.
  assert (Hrun : create_product post_widget env_anonymous =
    (Ok (Some (HttpResponseRedirect (LoginUrl "/create/"))), env_anonymous))
    by reflexivity.
  split; [reflexivity|]. split; [exact Hrun|].
  split; [by rewrite Hrun | reflexivity].
Qed.

(** Bob is logged in but may not add products: [PermissionDenied],
    status 403, whatever the view body. *)
Lemma create_product_rejects_unauthorized_witness :
  (forall view_func,
     guarded view_func post_widget env_bob = create_product post_widget env_bob)
  /\ create_product post_widget env_bob = (Raised PermissionDenied, env_bob)
  /\ (user env_bob = get_user (db env_bob) (session env_bob) ->
      status_code (get_response create_product post_widget env_bob).1
        = 403%nat).
Proof.
  apply (create_product_rejects_unauthorized post_widget env_bob).
  reflexivity.
Defined.

(** C2 as stated fails for a price of nine digits before the point
    (eleven in all, against [max_digits=10]): the body has a name and a
    price with two decimal places, the user is authorized, and yet no
    row is persisted and an error is reported. *)
Lemma create_product_nine_digit_price_rejected :
  method post_nine_digits = "POST"
  /\ get_user (db env_alice) (session env_alice) = Some alice
  /\ has_perm (Some alice) add_productmodel = true
  /\ POST post_nine_digits !! "nombre" = Some "Widget"
  /\ POST post_nine_digits !! "precio" = Some "123456789.00"
  /\ of_string "123456789.00"
       = Some (Finite false [1; 2; 3; 4; 5; 6; 7; 8; 9; 0; 0]%nat (-2))
  /\ products (db (get_response create_product post_nine_digits env_alice).2)
       = products (db env_alice)
  /\ messages (get_response create_product post_nine_digits env_alice).2
       = [(ERROR, "Error creating product")]
  /\ request_errors post_nine_digits !! "precio" = Some [e_max_digits].
Proof. repeat split; vm_compute; reflexivity. Qed.

(** A name of 101 characters is rejected as well ([max_length=100]). *)
Example create_product_long_name_rejected :
  String.length long_name = 101%nat
  /\ request_errors post_long_name !! "nombre" = Some [e_max_length]
  /\ products (db (get_response create_product post_long_name env_alice).2)
       = products (db env_alice).
Proof. repeat split; vm_compute; reflexivity. Qed.

(** So is a name of blanks only: it is empty once stripped. *)
Example create_product_blank_name_rejected :
  request_errors post_blank_name !! "nombre" = Some [e_required]
  /\ products (db (get_response create_product post_blank_name env_alice).2)
       = products (db env_alice).
Proof. repeat split; vm_compute; reflexivity. Qed.

(** The row that Alice's Widget at 19.99 becomes. *)
Example create_product_widget_row :
  products (db (get_response create_product post_widget env_alice).2) =
    [ {| row_id := 1; row_imagen := None; row_nombre := "Widget";
         row_descripcion := ""; row_precio := 1999;
         row_created_at := 1000; row_updated_at := 1000;
         row_created_by := 1; row_updated_by := 1; row_active := true |} ].
Proof. vm_compute. reflexivity. Qed.

(** The scenario of the specification: Alice posts Widget at 19.99. *)
Lemma create_product_persists_witness :
  exists row form,
    (get_response create_product post_widget env_alice).1 =
      Rendered "ProductForm.html" {[ "form" := form ]}
    /\ errors form = Some ∅
    /\ products (db (get_response create_product post_widget env_alice).2) =
         (products (db env_alice) ++ [row])%list
    /\ users (db (get_response create_product post_widget env_alice).2)
         = users (db env_alice)
    /\ row_created_by row = pk alice
    /\ row_updated_by row = pk alice
    /\ row_active row = true
    /\ row_nombre row = Text.strip "Widget"
    /\ to_cents (Finite false [1; 9; 9; 9]%nat (-2)) = Some (row_precio row)
    /\ messages (get_response create_product post_widget env_alice).2 =
         (messages env_alice
          ++ [(SUCCESS, "Product created successfully")])%list.
Proof.
  apply (create_product_persists post_widget env_alice alice
           "Widget" "19.99" false [1; 9; 9; 9]%nat (-2)).
  - reflexivity.
  - reflexivity.
  - reflexivity.
  - reflexivity.
  - vm_compute. discriminate.
  - vm_compute. lia.
  - reflexivity.
  - reflexivity.
  - reflexivity.
  - lia.
  - simpl. lia.
  - intros t Ht. vm_compute in Ht. discriminate.
  - vm_compute. exact I.
Defined.

(** C3 as stated fails for an anonymous requester: the POST without
    [nombre] is answered by a redirect, no form is rendered. *)
Lemma create_product_anonymous_no_form :
  method post_no_nombre = "POST"
  /\ POST post_no_nombre !! "nombre" = None
  /\ (get_response create_product post_no_nombre env_anonymous).1
       = HttpResponseRedirect (LoginUrl "/create/")
  /\ ~ (exists template context,
          (get_response create_product post_no_nombre env_anonymous).1
            = Rendered template context).
Proof.
  assert (Hrun : (get_response create_product post_no_nombre env_anonymous).1
                 = HttpResponseRedirect (LoginUrl "/create/")) by reflexivity.
  split; [reflexivity|]. split; [reflexivity|]. split; [exact Hrun|].
  intros (template & context & H). rewrite Hrun in H. discriminate.
Qed.

(** Alice posts a product without a name. *)
Lemma create_product_invalid_rerenders_witness :
  exists form errs,
    (get_response create_product post_no_nombre env_alice).1 =
      Rendered "ProductForm.html" {[ "form" := form ]}
    /\ is_bound form = true
    /\ data form = POST post_no_nombre
    /\ files form = FILES post_no_nombre
    /\ errors form = Some errs
    /\ (POST post_no_nombre !! "nombre" = None ->
        errs !! "nombre" = Some [e_required])
    /\ (~ parses_as_number (POST post_no_nombre !! "precio") ->
        exists c, errs !! "precio" = Some [c])
    /\ (forall field,
          is_Some (errs !! field) <-> offending post_no_nombre field)
    /\ db (get_response create_product post_no_nombre env_alice).2
         = db env_alice
    /\ session (get_response create_product post_no_nombre env_alice).2
         = session env_alice
    /\ messages (get_response create_product post_no_nombre env_alice).2 =
         (messages env_alice ++ [(ERROR, "Error creating product")])%list.
Proof.
  apply (create_product_invalid_rerenders post_no_nombre env_alice alice).
  - reflexivity.
  - reflexivity.
  - reflexivity.
  - left. reflexivity.
Defined.

(** The scenario of the specification: alice logs in with
    "correct123". *)
Lemma login_view_success_witness :
  exists e',
    login_view post_login_alice env_anonymous =
      (Ok (Some (Response "Login successful" 200)), e')
    /\ auth_user_id (session e') = Some (pk alice)
    /\ user e' = Some alice
    /\ messages e' =
         (messages env_anonymous ++ [(SUCCESS, "Login successful")])%list
    /\ db e' = db env_anonymous.
Proof.
  apply (login_view_success post_login_alice env_anonymous alice "correct123").
  - reflexivity.
  - simpl. repeat constructor; simpl; intuition discriminate.
  - simpl. auto.
  - reflexivity.
  - reflexivity.
  - reflexivity.
  - reflexivity.
Defined.

(** A wrong password for alice. *)
Lemma login_view_failure_witness :
  login_view post_login_wrong env_anonymous =
    (Ok (Some (HttpResponseRedirect (UrlNamed "login"))),
     with_messages
       (messages env_anonymous
        ++ [(ERROR, "Invalid username or password")])%list env_anonymous).
Proof.
  apply (login_view_failure post_login_wrong env_anonymous "alice" "guess").
  - reflexivity.
  - reflexivity.
  - reflexivity.
  - intros u [<-|[<-|[]]]; simpl; intros; discriminate.
Defined.

(** A GET by Alice, who is logged in. *)
Lemma login_view_get_witness :
  login_view get_login env_alice =
    (Ok (Some (Response "Already logged in" 200)), env_alice).
Proof. apply (login_view_get get_login env_alice). reflexivity. Defined.

(** Alice logs out with a DELETE request. *)
Lemma logout_view_terminates_session_witness :
  logout_view delete_logout env_alice =
    (Ok (Some (HttpResponseRedirect (UrlNamed "login"))),
     with_user None (with_session empty_session env_alice))
  /\ get_user (db (logout_view delete_logout env_alice).2)
       (session (logout_view delete_logout env_alice).2) = None.
Proof.
  apply (logout_view_terminates_session delete_logout env_alice alice).
  reflexivity.
Defined.

(** The database with Alice's widget. *)
Lemma audit_references_invariant_witness :
  (forall view, In view [login_view; logout_view; create_product] ->
     audit_ok (db (view post_widget env_widget).2)
     /\ audit_ok (db (get_response view post_widget env_widget).2))
  /\ (forall inst,
        created_by (audit inst) = None \/ updated_by (audit inst) = None ->
        exists x, Model_save inst env_widget = (Raised x, env_widget))
  /\ (forall inst, audit_ok (db (Model_save inst env_widget).2))
  /\ (forall k, existsb (references k) (products (db env_widget)) = true ->
        UserModel_delete k env_widget = (Raised ProtectedError, env_widget))
  /\ (forall k, audit_ok (db (UserModel_delete k env_widget).2)).
Proof.
  apply (audit_references_invariant post_widget env_widget).
  repeat constructor.
Defined.

(** A POST to the login view without a password. *)
Lemma login_view_missing_field_witness :
  exists key,
    (key = "username" \/ key = "password")
    /\ POST post_login_no_password !! key = None
    /\ login_view post_login_no_password env_anonymous =
         (Raised (MultiValueDictKeyError key), env_anonymous)
    /\ status_code
         (get_response login_view post_login_no_password env_anonymous).1
         = 500%nat
    /\ session (get_response login_view post_login_no_password env_anonymous).2
         = session env_anonymous.
Proof.
  apply (login_view_missing_field post_login_no_password env_anonymous).
  - reflexivity.
  - right. reflexivity.
Defined.

(** A PUT to the login view. *)
Lemma login_view_other_method_witness :
  login_view put_login env_anonymous = (Ok None, env_anonymous).
Proof.
  apply (login_view_other_method put_login env_anonymous); discriminate.
Defined.


(** * Further properties of the code *)

(** ** core/views.py *)

(** X1.  [logout_view] for an anonymous requester: [login_required]
    answers with a redirect to the login URL, carrying the requested
    path, and [logout] is not called: nothing changes. *)
Theorem logout_view_anonymous (request : HttpRequest) (e : Env) :
  user e = None ->
  logout_view request e =
    (Ok (Some (HttpResponseRedirect (LoginUrl (path request)))), e).
Proof.
  intros Hu. unfold logout_view, login_required, user_passes_test.
  run. by rewrite Hu.
Qed.

Lemma logout_view_anonymous_witness :
  logout_view delete_logout env_anonymous =
    (Ok (Some (HttpResponseRedirect (LoginUrl "/logout/"))), env_anonymous).
Proof.
  apply (logout_view_anonymous delete_logout env_anonymous). reflexivity.
Defined.

Lemma login_view_db (request : HttpRequest) (e : Env) :
  db (login_view request e).2 = db e.
Proof.
  unfold login_view.
  destruct (bool_decide (method request = "GET")).
  { run. by destruct (user e). }
  destruct (bool_decide (method request = "POST")); [|done].
  unfold getitem, authenticate. run.
  destruct (POST request !! "username") as [name|]; [|done].
  destruct (POST request !! "password") as [pw|]; [|done].
  destruct (get_by_natural_key (db e) name) as [u|]; [|done].
  by destruct (check_password u pw && user_can_authenticate u).
Qed.

Lemma logout_view_db (request : HttpRequest) (e : Env) :
  db (logout_view request e).2 = db e.
Proof.
  unfold logout_view, login_required, user_passes_test. run.
  by destruct (user e).
Qed.


(** What a successful login leaves in the session: the user's key,
    and the data the session held unless it belonged to another user. *)
Lemma login_view_post_run (request : HttpRequest) (e : Env)
    (u : UserModel) (pw : string) :
  method request = "POST" ->
  List.NoDup (map username (users (db e))) ->
  In u (users (db e)) ->
  POST request !! "username" = Some (username u) ->
  POST request !! "password" = Some pw ->
  check_password u pw = true ->
  is_active u = true ->
  login_view request e =
    (Ok (Some (Response "Login successful" 200)),
     with_messages (messages e ++ [(SUCCESS, "Login successful")])%list
       (with_user (Some u)
          (with_session
             {| auth_user_id := Some (pk u);
                session_data :=
                  match auth_user_id (session e) with
                  | Some k => if bool_decide (k = pk u)
                              then session_data (session e) else ∅
                  | None => session_data (session e)
                  end |} e))).
Proof.
  intros Hm Hnd Hin Hu Hp Hpw Hact.
  assert (Hg : method request <> "GET") by (rewrite Hm; discriminate).
  unfold login_view. rewrite (method_is_not _ _ Hg), (method_is _ _ Hm).
  unfold getitem, authenticate. rewrite Hu, Hp. run.
  rewrite (get_by_natural_key_unique _ _ Hnd Hin).
  unfold user_can_authenticate. rewrite Hpw, Hact. reflexivity.
Qed.

(** X3.  The POST branch of [login_view] does not ask whether the
    requester is logged in already.  With valid credentials the
    session passes to the user who logs in: data that the session held
    for another user is dropped, data of an anonymous session or of
    the same user is kept. *)
Theorem login_view_switches_user (request : HttpRequest) (e : Env)
    (u : UserModel) (pw : string) :
  method request = "POST" ->
  List.NoDup (map username (users (db e))) ->
  In u (users (db e)) ->
  POST request !! "username" = Some (username u) ->
  POST request !! "password" = Some pw ->
  check_password u pw = true ->
  is_active u = true ->
  (login_view request e).1 = Ok (Some (Response "Login successful" 200))
  /\ user (login_view request e).2 = Some u
  /\ auth_user_id (session (login_view request e).2) = Some (pk u)
  /\ (forall k, auth_user_id (session e) = Some k -> k <> pk u ->
        session_data (session (login_view request e).2) = ∅)
  /\ (auth_user_id (session e) = None
      \/ auth_user_id (session e) = Some (pk u) ->
        session_data (session (login_view request e).2)
          = session_data (session e)).
Proof.
  intros Hm Hnd Hin Hu Hp Hpw Hact.
  rewrite (login_view_post_run _ _ _ _ Hm Hnd Hin Hu Hp Hpw Hact). cbn.
  repeat split.
  - intros k -> Hk. by rewrite bool_decide_eq_false_2.
  - intros [->| ->]; [done|]. by rewrite bool_decide_eq_true_2.
Qed.

(** Bob is logged in and posts Alice's credentials. *)
Lemma login_view_switches_user_witness :
  (login_view post_login_alice env_bob).1
    = Ok (Some (Response "Login successful" 200))
  /\ user (login_view post_login_alice env_bob).2 = Some alice
  /\ auth_user_id (session (login_view post_login_alice env_bob).2)
       = Some (pk alice)
  /\ (forall k, auth_user_id (session env_bob) = Some k -> k <> pk alice ->
        session_data (session (login_view post_login_alice env_bob).2) = ∅)
  /\ (auth_user_id (session env_bob) = None
      \/ auth_user_id (session env_bob) = Some (pk alice) ->
        session_data (session (login_view post_login_alice env_bob).2)
          = session_data (session env_bob)).
Proof.
  apply (login_view_switches_user post_login_alice env_bob alice "correct123").
  - reflexivity.
  - simpl. repeat constructor; simpl; intuition discriminate.
  - simpl. auto.
  - reflexivity.
  - reflexivity.
  - reflexivity.
  - reflexivity.
Defined.

(** With unique primary keys, the lookup by key finds the user. *)
Lemma get_by_pk_unique (d : Database) (u : UserModel) :
  List.NoDup (map pk (users d)) -> In u (users d) ->
  get_by_pk d (pk u) = Some u.
Proof.
  unfold get_by_pk. induction (users d) as [|u0 us IH]; simpl.
  - intros _ [].
  - intros Hnd Hin. apply List.NoDup_cons_iff in Hnd as [Hfresh Hnd].
    destruct Hin as [->|Hin].
    + by rewrite bool_decide_eq_true_2.
    + rewrite bool_decide_eq_false_2; [by apply IH|].
      intros Heq. apply Hfresh. rewrite Heq. by apply in_map.
Qed.

(** The request cycle around a successful login. *)
Lemma after_login (request : HttpRequest) (e : Env)
    (u : UserModel) (pw : string) :
  method request = "POST" ->
  List.NoDup (map username (users (db e))) ->
  In u (users (db e)) ->
  POST request !! "username" = Some (username u) ->
  POST request !! "password" = Some pw ->
  check_password u pw = true ->
  is_active u = true ->
  db (after login_view request e) = db e
  /\ auth_user_id (session (after login_view request e)) = Some (pk u)
  /\ (get_response login_view request e).1 = Response "Login successful" 200.
Proof.
  intros Hm Hnd Hin Hu Hp Hpw Hact. unfold after, get_response.
  rewrite (login_view_post_run request
             (with_user (get_user (db e) (session e)) e) u pw
             Hm Hnd Hin Hu Hp Hpw Hact).
  done.
Qed.

(** After a successful login the middleware finds the user again. *)
Lemma get_user_after_login (request : HttpRequest) (e : Env)
    (u : UserModel) (pw : string) :
  method request = "POST" ->
  List.NoDup (map username (users (db e))) ->
  List.NoDup (map pk (users (db e))) ->
  In u (users (db e)) ->
  POST request !! "username" = Some (username u) ->
  POST request !! "password" = Some pw ->
  check_password u pw = true ->
  is_active u = true ->
  get_user (db (after login_view request e))
    (session (after login_view request e)) = Some u.
Proof.
  intros Hm Hnd Hpk Hin Hu Hp Hpw Hact.
  destruct (after_login _ _ _ _ Hm Hnd Hin Hu Hp Hpw Hact)
    as (Hdb & Hkey & _).
  unfold get_user. rewrite Hkey, Hdb.
  rewrite (get_by_pk_unique _ _ Hpk Hin).
  unfold user_can_authenticate. by rewrite Hact.
Qed.

(** X4.  Login and the middleware fit together: after a successful
    login (user keys being unique), the next request of the same
    session is recognized as that user, so that a GET to [login_view]
    answers "Already logged in" instead of showing the form. *)
Theorem login_then_recognized (request next : HttpRequest) (e : Env)
    (u : UserModel) (pw : string) :
  method request = "POST" ->
  List.NoDup (map username (users (db e))) ->
  List.NoDup (map pk (users (db e))) ->
  In u (users (db e)) ->
  POST request !! "username" = Some (username u) ->
  POST request !! "password" = Some pw ->
  check_password u pw = true ->
  is_active u = true ->
  method next = "GET" ->
  get_user (db (after login_view request e))
    (session (after login_view request e)) = Some u
  /\ (get_response login_view next (after login_view request e)).1
       = Response "Already logged in" 200.
Proof.
  intros Hm Hnd Hpk Hin Hu Hp Hpw Hact Hnext.
  pose proof (get_user_after_login _ _ _ _ Hm Hnd Hpk Hin Hu Hp Hpw Hact)
    as Hget.
  split; [done|].
  unfold get_response. rewrite Hget.
  unfold login_view. rewrite (method_is _ _ Hnext). reflexivity.
Qed.

Lemma login_then_recognized_witness :
  get_user (db (after login_view post_login_alice env_anonymous))
    (session (after login_view post_login_alice env_anonymous)) = Some alice
  /\ (get_response login_view get_login
        (after login_view post_login_alice env_anonymous)).1
       = Response "Already logged in" 200.
Proof.
  apply (login_then_recognized post_login_alice get_login env_anonymous
           alice "correct123").
  - reflexivity.
  - simpl. repeat constructor; simpl; intuition discriminate.
  - simpl. repeat constructor; simpl; intuition discriminate.
  - simpl. auto.
  - reflexivity.
  - reflexivity.
  - reflexivity.
  - reflexivity.
  - reflexivity.
Defined.

(** The request cycle around [logout_view] for a session that names
    an active user. *)
Lemma after_logout (request : HttpRequest) (e : Env) (u : UserModel) :
  get_user (db e) (session e) = Some u ->
  get_response logout_view request e =
    (HttpResponseRedirect (UrlNamed "login"),
     with_user None (with_session empty_session e)).
Proof.
  intros Hu. unfold get_response. rewrite Hu.
  unfold logout_view, login_required, user_passes_test, logout, redirect.
  reflexivity.
Qed.

(** X5.  Logging in and then out again leaves an empty session: the
    logout answers with a redirect to the URL named [login], the
    session names no user and holds no data, and a following GET to
    [login_view] shows the login form. *)
Theorem login_then_logout (request out next : HttpRequest) (e : Env)
    (u : UserModel) (pw : string) :
  method request = "POST" ->
  List.NoDup (map username (users (db e))) ->
  List.NoDup (map pk (users (db e))) ->
  In u (users (db e)) ->
  POST request !! "username" = Some (username u) ->
  POST request !! "password" = Some pw ->
  check_password u pw = true ->
  is_active u = true ->
  method next = "GET" ->
  (get_response logout_view out (after login_view request e)).1
    = HttpResponseRedirect (UrlNamed "login")
  /\ session (after logout_view out (after login_view request e))
       = empty_session
  /\ (get_response login_view next
        (after logout_view out (after login_view request e))).1
       = Rendered "LoginView.html" ∅.
Proof.
  intros Hm Hnd Hpk Hin Hu Hp Hpw Hact Hnext.
  pose proof (get_user_after_login _ _ _ _ Hm Hnd Hpk Hin Hu Hp Hpw Hact)
    as Hget.
  unfold after at 2 4. rewrite (after_logout out _ u Hget).
  split; [done|]. split; [done|].
  unfold get_response, login_view. cbn [fst snd db session with_user
    with_session get_user empty_session auth_user_id user].
  rewrite (method_is _ _ Hnext). reflexivity.
Qed.

Lemma login_then_logout_witness :
  (get_response logout_view delete_logout
     (after login_view post_login_alice env_anonymous)).1
    = HttpResponseRedirect (UrlNamed "login")
  /\ session (after logout_view delete_logout
                (after login_view post_login_alice env_anonymous))
       = empty_session
  /\ (get_response login_view get_login
        (after logout_view delete_logout
           (after login_view post_login_alice env_anonymous))).1
       = Rendered "LoginView.html" ∅.
Proof.
  apply (login_then_logout post_login_alice delete_logout get_login
           env_anonymous alice "correct123").
  - reflexivity.
  - simpl. repeat constructor; simpl; intuition discriminate.
  - simpl. repeat constructor; simpl; intuition discriminate.
  - simpl. auto.
  - reflexivity.
  - reflexivity.
  - reflexivity.
  - reflexivity.
  - reflexivity.
Defined.

(** ** products/forms.py with products/models.py: what the fields accept *)

(** What an accepted [nombre] looks like. *)
Lemma clean_nombre_inr (d : gmap string string) (n : string) :
  clean_nombre d = inr n ->
  exists v, d !! "nombre" = Some v
    /\ n = Text.strip v
    /\ n <> ""
    /\ (String.length n <= 100)%nat
    /\ Text.has_nul n = false.
Proof.
  unfold clean_nombre, CharField_clean.
  destruct (d !! "nombre") as [v|]; cbv zeta; [|done].
  destruct (bool_decide (Text.strip v = "")) eqn:Hempty; [done|].
  apply bool_decide_eq_false_1 in Hempty.
  destruct (Nat.ltb_spec 100 (String.length (Text.strip v))); [done|].
  destruct (Text.has_nul (Text.strip v)) eqn:Hnul; [done|].
  intros [= <-]. exists v. repeat split; try done; lia.
Qed.

(** X6.  [nombre] ([CharField(max_length=100, blank=False)]) is
    accepted exactly when it is submitted and, stripped of surrounding
    whitespace, is not empty, has at most 100 characters and no NUL;
    the cleaned value is the stripped text. *)
Theorem clean_nombre_accepts_iff (d : gmap string string) (n : string) :
  clean_nombre d = inr n <->
  exists v, d !! "nombre" = Some v
    /\ n = Text.strip v
    /\ n <> ""
    /\ (String.length n <= 100)%nat
    /\ Text.has_nul n = false.
Proof.
  split; [apply clean_nombre_inr|].
  unfold clean_nombre, CharField_clean.
  - intros (v & -> & -> & Hne & Hlen & Hnul). cbv zeta.
    rewrite bool_decide_eq_false_2 by done.
    rewrite (proj2 (Nat.ltb_ge _ _) Hlen). by rewrite Hnul.
Qed.

(** [DecimalValidator(10, 2)] in arithmetic: at most two decimal
    places, and at most eight digits before the point (a zero may
    carry any exponent). *)
Lemma DecimalValidator_accepts_iff (neg : bool) (ds : list nat) (ex : Z) :
  DecimalValidator 10 2 (Finite neg ds ex) = None <->
  -2 <= ex
  /\ (Z.of_nat (List.length ds) + ex <= 8 \/ (ds = [O] /\ 0 <= ex)).
Proof.
  unfold DecimalValidator.
  destruct (Z.leb_spec 0 ex) as [Hnonneg|Hnegative].
  - destruct (bool_decide (ds = [O])) eqn:Hzero.
    + apply bool_decide_eq_true_1 in Hzero. subst ds.
      cbn. split; [intros _; split; [lia|by right]|done].
    + apply bool_decide_eq_false_1 in Hzero. cbv beta iota zeta.
      destruct (Z.ltb_spec 10 (Z.of_nat (List.length ds) + ex)).
      { split; [done|]. intros [_ [?|[? _]]]; [lia|done]. }
      destruct (Z.ltb_spec 2 0); [lia|].
      destruct (Z.ltb_spec (10 - 2) (Z.of_nat (List.length ds) + ex - 0)).
      { split; [done|]. intros [_ [?|[? _]]]; [lia|done]. }
      split; [intros _; split; [lia|left; lia]|done].
  - destruct (Z.ltb_spec (Z.of_nat (List.length ds)) (Z.abs ex));
      cbv beta iota zeta.
    + destruct (Z.ltb_spec 10 (Z.abs ex)).
      { split; [done|]. intros [? _]. lia. }
      destruct (Z.ltb_spec 2 (Z.abs ex)).
      { split; [done|]. intros [? _]. lia. }
      destruct (Z.ltb_spec (10 - 2) (Z.abs ex - Z.abs ex)); [lia|].
      split; [intros _; split; [lia|left; lia]|done].
    + destruct (Z.ltb_spec 10 (Z.of_nat (List.length ds))).
      { split; [done|]. intros [? [?|[_ ?]]]; lia. }
      destruct (Z.ltb_spec 2 (Z.abs ex)).
      { split; [done|]. intros [? _]. lia. }
      destruct (Z.ltb_spec (10 - 2)
                  (Z.of_nat (List.length ds) - Z.abs ex)).
      { split; [done|]. intros [? [?|[_ ?]]]; lia. }
      split; [intros _; split; [lia|left; lia]|done].
Qed.

(** What an accepted [precio] looks like. *)
Lemma clean_precio_inr (d : gmap string string) (r : option Decimal) :
  clean_precio d = inr r ->
  exists p neg ds ex,
    d !! "precio" = Some p
    /\ of_string p = Some (Finite neg ds ex)
    /\ r = Some (Finite neg ds ex)
    /\ -2 <= ex
    /\ (Z.of_nat (List.length ds) + ex <= 8 \/ (ds = [O] /\ 0 <= ex)).
Proof.
  unfold clean_precio, DecimalField_clean.
  destruct (d !! "precio") as [p|]; cbv zeta; [|done].
  destruct (bool_decide (p = "")); [done|].
  cbn [mbind option_bind].
  destruct (of_string p) as [[neg ds ex| |]|] eqn:Hparse; try done.
  cbn [is_finite negb].
  destruct (DecimalValidator 10 2 (Finite neg ds ex)) eqn:Hval; [done|].
  intros [= <-]. apply DecimalValidator_accepts_iff in Hval as [Hex Hwhole].
  by exists p, neg, ds, ex.
Qed.


(** An accepted price fits the column without rounding: it is stored
    as its exact value in hundredths. *)
Lemma to_cents_validated (neg : bool) (ds : list nat) (ex : Z) :
  Forall is_digit_value ds ->
  -2 <= ex ->
  Z.of_nat (List.length ds) + ex <= 8 \/ (ds = [O] /\ 0 <= ex) ->
  to_cents (Finite neg ds ex) =
    Some (if neg then - (int_of_digits ds * 10 ^ (ex + 2))
          else int_of_digits ds * 10 ^ (ex + 2))
  /\ 0 <= int_of_digits ds * 10 ^ (ex + 2) < 10 ^ 10.
Proof.
  intros Hds Hex Hwhole.
  assert (Hp : 0 < 10 ^ (ex + 2)) by (apply Z.pow_pos_nonneg; lia).
  assert (Hv : 0 <= int_of_digits ds * 10 ^ (ex + 2) < 10 ^ 10).
  { destruct Hwhole as [Hwhole|[-> Hnonneg]].
    - pose proof (int_of_digits_bound ds Hds) as [Hlo Hhi].
      split; [nia|].
      eapply Z.lt_le_trans.
      + apply Z.mul_lt_mono_pos_r; [exact Hp | exact Hhi].
      + rewrite <- Z.pow_add_r by lia. apply Z.pow_le_mono_r; lia.
    - change (int_of_digits [O]) with 0. lia. }
  split; [|exact Hv]. unfold to_cents.
  destruct (Z.leb_spec 0 (ex + 2)); [|lia].
  destruct (Z.ltb_spec (int_of_digits ds * 10 ^ (ex + 2)) (10 ^ 10));
    [done|lia].
Qed.

(** ** products/views.py: every path of [create_product] *)

(** An error dict without entries: every field cleaned. *)
Lemma collect_errors_empty
    (ci : list ErrorCode + FileCleaned) (cn cd : list ErrorCode + string)
    (cp : list ErrorCode + option Decimal) :
  collect_errors ci cn cd cp = ∅ <->
  ~ failed ci /\ ~ failed cn /\ ~ failed cd /\ ~ failed cp.
Proof.
  split.
  - intros Hempty.
    assert (Hnone : forall field,
      ~ is_Some (collect_errors ci cn cd cp !! field)).
    { intros field [x Hx]. by rewrite Hempty, lookup_empty in Hx. }
    repeat split; intros Hf.
    + apply (Hnone "imagen"), collect_errors_lookup. auto.
    + apply (Hnone "nombre"), collect_errors_lookup. auto.
    + apply (Hnone "descripcion"), collect_errors_lookup. auto.
    + apply (Hnone "precio"), collect_errors_lookup. auto 6.
  - intros (Hi & Hn & Hd & Hp).
    destruct ci; [by destruct Hi|]. destruct cn; [by destruct Hn|].
    destruct cd; [by destruct Hd|]. destruct cp; [by destruct Hp|].
    reflexivity.
Qed.

(** A form without errors carries a price that fits the column, and a
    name within the limits of the model. *)
Lemma request_errors_empty_inv (request : HttpRequest) :
  request_errors request = ∅ ->
  exists v p neg ds ex,
    POST request !! "nombre" = Some v
    /\ nombre (cleaned_instance request) = Text.strip v
    /\ Text.strip v <> ""
    /\ (String.length (Text.strip v) <= 100)%nat
    /\ Text.has_nul (Text.strip v) = false
    /\ POST request !! "precio" = Some p
    /\ of_string p = Some (Finite neg ds ex)
    /\ precio (cleaned_instance request) = Some (Finite neg ds ex)
    /\ to_cents (Finite neg ds ex) =
         Some (if neg then - (int_of_digits ds * 10 ^ (ex + 2))
               else int_of_digits ds * 10 ^ (ex + 2))
    /\ 0 <= int_of_digits ds * 10 ^ (ex + 2) < 10 ^ 10.
Proof.
  unfold request_errors. intros Hempty.
  apply collect_errors_empty in Hempty as (_ & Hn & _ & Hp).
  destruct (clean_nombre (POST request)) as [?|n] eqn:Hcn; [by destruct Hn|].
  destruct (clean_precio (POST request)) as [?|r] eqn:Hcp; [by destruct Hp|].
  pose proof Hcn as Hcn'. pose proof Hcp as Hcp'.
  apply clean_nombre_inr in Hcn'
    as (v & Hv & -> & Hne & Hlen & Hnul).
  apply clean_precio_inr in Hcp'
    as (p & neg & ds & ex & Hpv & Hparse & -> & Hex & Hwhole).
  destruct (to_cents_validated neg ds ex (of_string_values _ _ _ _ Hparse)
              Hex Hwhole) as (Hcents & Hlo & Hhi).
  exists v, p, neg, ds, ex.
  unfold cleaned_instance, full_clean, ProductForm_bound.
  cbn [is_bound instance data files construct_instance nombre precio].
  rewrite Hcn, Hcp. by repeat split.
Qed.

(** The valid POST, with the row and the form spelled out. *)
Lemma create_product_body_saves (request : HttpRequest) (e : Env)
    (u : UserModel) (dec : Decimal) (cents : Z) :
  method request = "POST" ->
  user e = Some u ->
  user_exists (db e) (pk u) = true ->
  request_errors request = ∅ ->
  precio (cleaned_instance request) = Some dec ->
  to_cents dec = Some cents ->
  exists form,
    create_product_body request e =
      (Ok (Some (Rendered "ProductForm.html" {[ "form" := form ]})),
       with_messages
         (messages e ++ [(SUCCESS, "Product created successfully")])%list
         (with_db (with_products
                     (products (db e) ++ [new_row request e u cents])%list
                     (db e)) e))
    /\ is_bound form = true
    /\ data form = POST request
    /\ files form = FILES request
    /\ errors form = Some ∅
    /\ id (instance form) = Some (next_id (db e))
    /\ ProductModel_str (instance form) = nombre (cleaned_instance request).
Proof.
  intros Hm Hu Hex Herr Hprecio Hcents.
  assert (Hg : method request <> "GET") by (rewrite Hm; discriminate).
  unfold create_product_body.
  rewrite (method_is_not _ _ Hg), (method_is _ _ Hm).
  unfold is_valid, form_errors.
  cbn [is_bound errors ProductForm_bound full_clean data files default].
  change (collect_errors _ _ _ _) with (request_errors request).
  rewrite Herr. rewrite bool_decide_eq_true_2 by done.
  eexists. split.
  - erewrite run_bind; [reflexivity|].
    erewrite run_bind; [|reflexivity].
    erewrite run_bind; [|reflexivity].
    erewrite run_bind; [|by rewrite Hu].
    erewrite run_bind; [|reflexivity].
    erewrite run_bind; [|by rewrite Hu].
    erewrite run_bind.
    2:{ unfold ProductForm_save, form_errors.
        cbn [errors with_instance instance].
        rewrite bool_decide_eq_true_2 by done.
        erewrite run_bind; [reflexivity|].
        eapply (Model_save_insert _ _ dec cents (pk u) (pk u));
          [reflexivity | exact Hprecio | exact Hcents
          | reflexivity | reflexivity | exact Hex | exact Hex]. }
    reflexivity.
  - by cbn.
Qed.

(** The price, in hundredths, that a request's form submits. *)
Lemma submitted_cents (request : HttpRequest) :
  request_errors request = ∅ ->
  exists cents,
    precio (cleaned_instance request) ≫= to_cents = Some cents.
Proof.
  intros Herr.
  destruct (request_errors_empty_inv _ Herr)
    as (v & p & neg & ds & ex & _ & _ & _ & _ & _ & _ & _ & Hprecio
        & Hcents & _).
  eexists. rewrite Hprecio. exact Hcents.
Qed.

(** The request cycle around a POST that gets as far as saving. *)
Lemma create_product_creates (request : HttpRequest) (e : Env)
    (u : UserModel) (cents : Z) :
  creates request e u ->
  precio (cleaned_instance request) ≫= to_cents = Some cents ->
  exists form,
    get_response create_product request e =
      (Rendered "ProductForm.html" {[ "form" := form ]},
       with_messages
         (messages e ++ [(SUCCESS, "Product created successfully")])%list
         (with_db (with_products
                     (products (db e) ++ [new_row request e u cents])%list
                     (db e))
            (with_user (Some u) e)))
    /\ is_bound form = true
    /\ data form = POST request
    /\ files form = FILES request
    /\ errors form = Some ∅
    /\ id (instance form) = Some (next_id (db e))
    /\ ProductModel_str (instance form) = nombre (cleaned_instance request).
Proof.
  intros (Hm & Hu & Hperm & Herr) Hcents.
  destruct (precio (cleaned_instance request)) as [dec|] eqn:Hprecio;
    [|done].
  destruct (create_product_body_saves request (with_user (Some u) e) u
              dec cents Hm eq_refl
              (get_user_exists _ _ _ Hu) Herr Hprecio Hcents)
    as (form & Hrun & Hfacts).
  exists form.
  by rewrite (get_response_create_product _ _ _ Hu Hperm), Hrun.
Qed.

(** Whether a request gets as far as saving can be decided. *)
Lemma creates_dec (request : HttpRequest) (e : Env) :
  (exists u, creates request e u) \/ (forall u, ~ creates request e u).
Proof.
  unfold creates.
  destruct (decide (method request = "POST")) as [Hm|Hm];
    [|right; intros u (? & _); done].
  destruct (decide (request_errors request = ∅)) as [Herr|Herr];
    [|right; intros u (_ & _ & _ & ?); done].
  destruct (get_user (db e) (session e)) as [u|];
    [|right; intros u (_ & ? & _); done].
  destruct (has_perm (Some u) add_productmodel) eqn:Hperm.
  - left. by exists u.
  - right. intros u' (_ & [= <-] & Hp & _). congruence.
Qed.

(** The GET branch of the body: the empty, unbound form. *)
Lemma create_product_body_get (request : HttpRequest) (e : Env) :
  method request = "GET" ->
  create_product_body request e =
    (Ok (Some (Rendered "ProductForm.html" {[ "form" := ProductForm_new ]})),
     e).
Proof.
  intros Hm. unfold create_product_body. by rewrite (method_is _ _ Hm).
Qed.

(** Neither branch of the body: the view returns [None]. *)
Lemma create_product_body_other (request : HttpRequest) (e : Env) :
  method request <> "GET" -> method request <> "POST" ->
  create_product_body request e = (Ok None, e).
Proof.
  intros Hg Hp. unfold create_product_body.
  by rewrite (method_is_not _ _ Hg), (method_is_not _ _ Hp).
Qed.

(** Every other request: the database and the session stay as they
    were, and at most the error message is recorded. *)
Lemma create_product_not_creates (request : HttpRequest) (e : Env) :
  (forall u, ~ creates request e u) ->
  db (after create_product request e) = db e
  /\ session (after create_product request e) = session e
  /\ (messages (after create_product request e) = messages e
      \/ messages (after create_product request e)
           = (messages e ++ [(ERROR, "Error creating product")])%list).
Proof.
  intros Hnot. unfold after.
  destruct (has_perm (get_user (db e) (session e)) add_productmodel)
    eqn:Hperm.
  - destruct (get_user (db e) (session e)) as [u|] eqn:Hu; [|done].
    rewrite (get_response_create_product _ _ _ Hu Hperm).
    destruct (decide (method request = "GET")) as [Hg|Hg].
    { rewrite (create_product_body_get _ _ Hg). by auto. }
    destruct (decide (method request = "POST")) as [Hm|Hm].
    + destruct (decide (request_errors request = ∅)) as [Herr|Herr].
      { exfalso. by apply (Hnot u). }
      rewrite (create_product_body_invalid _ _ Hm Herr). by auto.
    + rewrite (create_product_body_other _ _ Hg Hm). by auto.
  - unfold get_response, create_product.
    rewrite guarded_rejects by done. cbn [user with_user].
    by destruct (get_user (db e) (session e)); auto.
Qed.

(** X8.  A GET to [create_product] by a requester who holds the
    permission renders the template with an empty, unbound form and
    changes nothing. *)
Theorem create_product_get (request : HttpRequest) (e : Env) :
  method request = "GET" ->
  has_perm (user e) add_productmodel = true ->
  create_product request e =
    (Ok (Some (Rendered "ProductForm.html" {[ "form" := ProductForm_new ]})),
     e)
  /\ is_bound ProductForm_new = false
  /\ (is_valid ProductForm_new).1 = false.
Proof.
  intros Hm Hperm. unfold create_product.
  rewrite (guarded_accepts _ _ _ Hperm).
  by rewrite (create_product_body_get _ _ Hm).
Qed.

Lemma create_product_get_witness :
  create_product get_create env_alice =
    (Ok (Some (Rendered "ProductForm.html" {[ "form" := ProductForm_new ]})),
     env_alice)
  /\ is_bound ProductForm_new = false
  /\ (is_valid ProductForm_new).1 = false.
Proof.
  apply (create_product_get get_create env_alice); reflexivity.
Defined.

(** X9.  A request to [create_product] whose method is neither GET
    nor POST, by a requester who holds the permission, falls through:
    the view returns [None], changes nothing, and the handler answers
    with status 500. *)
Theorem create_product_other_method (request : HttpRequest) (e : Env)
    (u : UserModel) :
  method request <> "GET" -> method request <> "POST" ->
  get_user (db e) (session e) = Some u ->
  has_perm (Some u) add_productmodel = true ->
  create_product request (with_user (Some u) e)
    = (Ok None, with_user (Some u) e)
  /\ status_code (get_response create_product request e).1 = 500%nat
  /\ db (after create_product request e) = db e
  /\ messages (after create_product request e) = messages e.
Proof.
  intros Hg Hp Hu Hperm. unfold after.
  rewrite (get_response_create_product _ _ _ Hu Hperm).
  unfold create_product. rewrite guarded_accepts by done.
  by rewrite (create_product_body_other _ _ Hg Hp).
Qed.

Lemma create_product_other_method_witness :
  create_product put_create (with_user (Some alice) env_alice)
    = (Ok None, with_user (Some alice) env_alice)
  /\ status_code (get_response create_product put_create env_alice).1
       = 500%nat
  /\ db (after create_product put_create env_alice) = db env_alice
  /\ messages (after create_product put_create env_alice)
       = messages env_alice.
Proof.
  apply (create_product_other_method put_create env_alice alice);
    try discriminate; reflexivity.
Defined.

(** A list is not itself with one more element. *)
Lemma app_singleton_neq {A} (l : list A) (x : A) : l <> (l ++ [x])%list.
Proof.
  intros H. apply (f_equal (@List.length A)) in H.
  rewrite List.length_app in H. simpl in H. lia.
Qed.

(** What [create_product] appended is the row of a request that got
    as far as saving. *)
Lemma create_product_appended_inv (request : HttpRequest) (e : Env)
    (row : ProductRow) :
  products (db (after create_product request e))
    = (products (db e) ++ [row])%list ->
  exists u cents,
    creates request e u
    /\ precio (cleaned_instance request) ≫= to_cents = Some cents
    /\ row = new_row request e u cents.
Proof.
  intros Happ. destruct (creates_dec request e) as [[u Hc]|Hnot].
  - destruct (submitted_cents request) as [cents Hcents]; [apply Hc|].
    destruct (create_product_creates _ _ _ _ Hc Hcents) as (form & Hrun & _).
    unfold after in Happ. rewrite Hrun in Happ. cbn in Happ.
    apply List.app_inj_tail in Happ as [_ <-]. by exists u, cents.
  - destruct (create_product_not_creates _ _ Hnot) as (Hdb & _).
    rewrite Hdb in Happ. by apply app_singleton_neq in Happ.
Qed.

(** X10.  [create_product] persists a product exactly when the
    request is a POST by a session user who holds the permission and
    the form has no errors; then exactly one row is appended.  In
    every other case the database is left as it was.  The user table
    and the session are never changed. *)
Theorem create_product_persists_iff (request : HttpRequest) (e : Env) :
  ((exists row, products (db (after create_product request e))
                  = (products (db e) ++ [row])%list)
   <-> exists u, creates request e u)
  /\ ((forall u, ~ creates request e u) ->
      db (after create_product request e) = db e)
  /\ users (db (after create_product request e)) = users (db e)
  /\ session (after create_product request e) = session e.
Proof.
  split; [split|split; [|split]].
  - intros [row Happ].
    destruct (create_product_appended_inv _ _ _ Happ) as (u & _ & Hc & _).
    by exists u.
  - intros [u Hc].
    destruct (submitted_cents request) as [cents Hcents]; [apply Hc|].
    destruct (create_product_creates _ _ _ _ Hc Hcents) as (form & Hrun & _).
    exists (new_row request e u cents). unfold after. by rewrite Hrun.
  - intros Hnot. by apply create_product_not_creates.
  - destruct (creates_dec request e) as [[u Hc]|Hnot].
    + destruct (submitted_cents request) as [cents Hcents]; [apply Hc|].
      destruct (create_product_creates _ _ _ _ Hc Hcents)
        as (form & Hrun & _).
      unfold after. by rewrite Hrun.
    + destruct (create_product_not_creates _ _ Hnot) as (-> & _). done.
  - destruct (creates_dec request e) as [[u Hc]|Hnot].
    + destruct (submitted_cents request) as [cents Hcents]; [apply Hc|].
      destruct (create_product_creates _ _ _ _ Hc Hcents)
        as (form & Hrun & _).
      unfold after. by rewrite Hrun.
    + by destruct (create_product_not_creates _ _ Hnot) as (_ & -> & _).
Qed.

(** The key of a new row is not in use. *)
Lemma next_id_fresh (d : Database) :
  ~ In (next_id d) (map row_id (products d)).
Proof.
  unfold next_id.
  assert (Hle : forall l k, In k l -> (k <= foldr Nat.max O l)%nat).
  { induction l as [|x l IH]; simpl; [done|].
    intros k [->|Hin]; [lia|]. specialize (IH k Hin). lia. }
  intros Hin. apply Hle in Hin. lia.
Qed.

(** X11.  Every row that [create_product] persists carries the audit
    stamps: [created_by] and [updated_by] are the key of the session
    user, who holds the permission; [active] is true; [created_at] and
    [updated_at] are the time of the request; and the primary key is
    one that no earlier row has. *)
Theorem create_product_row_audit (request : HttpRequest) (e : Env)
    (row : ProductRow) :
  products (db (after create_product request e))
    = (products (db e) ++ [row])%list ->
  (exists u, get_user (db e) (session e) = Some u
     /\ has_perm (Some u) add_productmodel = true
     /\ row_created_by row = pk u
     /\ row_updated_by row = pk u)
  /\ row_active row = true
  /\ row_created_at row = now e
  /\ row_updated_at row = now e
  /\ ~ In (row_id row) (map row_id (products (db e))).
Proof.
  intros Happ.
  destruct (create_product_appended_inv _ _ _ Happ)
    as (u & cents & (_ & Hu & Hperm & _) & _ & ->).
  split; [by exists u|]. repeat split. apply next_id_fresh.
Qed.

Lemma create_product_row_audit_witness :
  (exists u, get_user (db env_widget) (session env_widget) = Some u
     /\ has_perm (Some u) add_productmodel = true
     /\ row_created_by (new_row post_gadget env_widget alice 500) = pk u
     /\ row_updated_by (new_row post_gadget env_widget alice 500) = pk u)
  /\ row_active (new_row post_gadget env_widget alice 500) = true
  /\ row_created_at (new_row post_gadget env_widget alice 500)
       = now env_widget
  /\ row_updated_at (new_row post_gadget env_widget alice 500)
       = now env_widget
  /\ ~ In (row_id (new_row post_gadget env_widget alice 500))
         (map row_id (products (db env_widget))).
Proof.
  apply (create_product_row_audit post_gadget env_widget).
  vm_compute. reflexivity.
Defined.

(** The cleaned description: the stripped text, empty when nothing
    was submitted. *)
Lemma clean_descripcion_value (d : gmap string string) (t : string) :
  clean_descripcion d = inr t ->
  t = match d !! "descripcion" with
      | Some v => Text.strip v
      | None => ""
      end.
Proof.
  unfold clean_descripcion, CharField_clean. cbv zeta.
  set (value := match d !! "descripcion" with
                | Some v => Text.strip v
                | None => ""
                end).
  destruct (bool_decide (value = "")); [by intros [= <-]|].
  destruct (Text.has_nul value); [done|]. by intros [= <-].
Qed.

(** The cleaned image: the upload, unless the clear box is ticked; an
    upload that is accepted has Pillow's approval and some content. *)
Lemma clean_imagen_value (d : gmap string string)
    (fs : gmap string UploadedFile) (ci : FileCleaned) :
  clean_imagen d fs = inr ci ->
  match ci with CleanedFile f => Some f | _ => None end
    = (if checkbox_value d "imagen-clear" then None else fs !! "imagen")
  /\ (forall f, ci = CleanedFile f ->
        is_image f = true /\ file_size f <> 0%N /\ file_name f <> ""
        /\ (String.length (file_name f) <= 100)%nat).
Proof.
  unfold clean_imagen, file_widget_value.
  change ("imagen" +:+ "-clear") with "imagen-clear".
  destruct (checkbox_value d "imagen-clear").
  - destruct (fs !! "imagen") as [f|]; [destruct (file_truthy f)|];
      unfold ImageField_clean; try done; by intros [= <-].
  - destruct (fs !! "imagen") as [f|]; unfold ImageField_clean;
      [|by intros [= <-]].
    destruct (Nat.ltb_spec 100 (String.length (file_name f))); [done|].
    destruct (bool_decide (file_name f = "")) eqn:Hname; [done|].
    apply bool_decide_eq_false_1 in Hname.
    destruct (N.eqb_spec (file_size f) 0); [done|].
    destruct (is_image f) eqn:Himg; [|done].
    cbn [negb]. intros [= <-]. split; [done|]. intros f' [= <-].
    repeat split; try done; lia.
Qed.

(** X12.  Every row that [create_product] persists holds what was
    submitted, within the limits of the model: the name is the
    submitted [nombre] without surrounding whitespace, not empty, at
    most 100 characters, free of NUL; the price is exactly the
    submitted number, in hundredths, and lies strictly between
    [-10^10] and [10^10]; the description is the stripped text, or
    empty when none was submitted; the image is the upload of the
    request (none when the clear box is ticked), and an image that is
    stored has some content and Pillow's approval. *)
Theorem create_product_row_content (request : HttpRequest) (e : Env)
    (row : ProductRow) :
  products (db (after create_product request e))
    = (products (db e) ++ [row])%list ->
  (exists v, POST request !! "nombre" = Some v
     /\ row_nombre row = Text.strip v)
  /\ row_nombre row <> ""
  /\ (String.length (row_nombre row) <= 100)%nat
  /\ Text.has_nul (row_nombre row) = false
  /\ (exists p neg ds ex,
        POST request !! "precio" = Some p
        /\ of_string p = Some (Finite neg ds ex)
        /\ row_precio row =
             if neg then - (int_of_digits ds * 10 ^ (ex + 2))
             else int_of_digits ds * 10 ^ (ex + 2))
  /\ - 10 ^ 10 < row_precio row < 10 ^ 10
  /\ row_descripcion row =
       match POST request !! "descripcion" with
       | Some t => Text.strip t
       | None => ""
       end
  /\ row_imagen row =
       (if checkbox_value (POST request) "imagen-clear" then None
        else FILES request !! "imagen")
  /\ (forall f, row_imagen row = Some f ->
        is_image f = true /\ file_size f <> 0%N).
Proof.
  intros Happ.
  destruct (create_product_appended_inv _ _ _ Happ)
    as (u & cents & (_ & _ & _ & Herr) & Hcents & ->).
  destruct (request_errors_empty_inv _ Herr)
    as (v & p & neg & ds & ex & Hv & Hnom & Hne & Hlen & Hnul
        & Hp & Hparse & Hprecio & Hto & Hlo & Hhi).
  rewrite Hprecio in Hcents. cbn [mbind option_bind] in Hcents.
  rewrite Hto in Hcents.
  injection Hcents as <-.
  unfold request_errors in Herr.
  apply collect_errors_empty in Herr as (Hi & _ & Hd & _).
  destruct (clean_imagen (POST request) (FILES request)) as [?|ci] eqn:Hci;
    [by destruct Hi|].
  destruct (clean_descripcion (POST request)) as [?|t] eqn:Hcd;
    [by destruct Hd|].
  destruct (clean_imagen_value _ _ _ Hci) as [Himg Hfile].
  pose proof (clean_descripcion_value _ _ Hcd) as Hdesc.
  set (cents := if neg then - (int_of_digits ds * 10 ^ (ex + 2))
                else int_of_digits ds * 10 ^ (ex + 2)).
  assert (Hrow_img : row_imagen (new_row request e u cents)
          = match ci with CleanedFile f => Some f | _ => None end).
  { unfold new_row, cleaned_instance, full_clean, ProductForm_bound.
    cbn [row_imagen is_bound instance data files construct_instance imagen].
    rewrite Hci. by destruct ci. }
  assert (Hrow_desc : row_descripcion (new_row request e u cents) = t).
  { unfold new_row, cleaned_instance, full_clean, ProductForm_bound.
    cbn [row_descripcion is_bound instance data files construct_instance
         descripcion].
    by rewrite Hcd. }
  change (row_nombre (new_row request e u cents))
    with (nombre (cleaned_instance request)).
  change (row_precio (new_row request e u cents)) with cents.
  rewrite Hrow_img, Hrow_desc, Hnom.
  split; [by exists v|].
  split; [done|]. split; [done|]. split; [done|].
  split; [by exists p, neg, ds, ex|].
  split; [unfold cents; destruct neg; lia|].
  split; [done|]. split; [done|].
  intros f Hf. destruct ci as [| |f']; try done.
  injection Hf as ->. by destruct (Hfile f eq_refl) as (? & ? & _).
Qed.

(** Alice posts the gadget while the widget is there. *)
Lemma create_product_row_content_witness :
  (exists v, POST post_gadget !! "nombre" = Some v
     /\ row_nombre (new_row post_gadget env_widget alice 500) = Text.strip v)
  /\ row_nombre (new_row post_gadget env_widget alice 500) <> ""
  /\ (String.length (row_nombre (new_row post_gadget env_widget alice 500))
      <= 100)%nat
  /\ Text.has_nul (row_nombre (new_row post_gadget env_widget alice 500))
       = false
  /\ (exists p neg ds ex,
        POST post_gadget !! "precio" = Some p
        /\ of_string p = Some (Finite neg ds ex)
        /\ row_precio (new_row post_gadget env_widget alice 500) =
             if neg then - (int_of_digits ds * 10 ^ (ex + 2))
             else int_of_digits ds * 10 ^ (ex + 2))
  /\ - 10 ^ 10 < row_precio (new_row post_gadget env_widget alice 500)
       < 10 ^ 10
  /\ row_descripcion (new_row post_gadget env_widget alice 500) =
       match POST post_gadget !! "descripcion" with
       | Some t => Text.strip t
       | None => ""
       end
  /\ row_imagen (new_row post_gadget env_widget alice 500) =
       (if checkbox_value (POST post_gadget) "imagen-clear" then None
        else FILES post_gadget !! "imagen")
  /\ (forall f, row_imagen (new_row post_gadget env_widget alice 500)
                  = Some f ->
        is_image f = true /\ file_size f <> 0%N).
Proof.
  apply (create_product_row_content post_gadget env_widget).
  vm_compute. reflexivity.
Defined.

(** The gadget row itself. *)
Example create_product_gadget_row :
  new_row post_gadget env_widget alice 500 =
    {| row_id := 2; row_imagen := None; row_nombre := "Gadget";
       row_descripcion := "new"; row_precio := 500;
       row_created_at := 1000; row_updated_at := 1000;
       row_created_by := 1; row_updated_by := 1; row_active := true |}.
Proof. vm_compute. reflexivity. Qed.

(** No view removes or rewrites a product row: the table only grows
    at its end. *)
Lemma products_grow (view : View) (request : HttpRequest) (e : Env) :
  In view [login_view; logout_view; create_product] ->
  products (db (after view request e)) = products (db e)
  \/ exists u cents,
       products (db (after view request e))
         = (products (db e) ++ [new_row request e u cents])%list.
Proof.
  intros [<-|[<-|[<-|[]]]].
  - left. unfold after. by rewrite get_response_db, login_view_db.
  - left. unfold after. by rewrite get_response_db, logout_view_db.
  - destruct (creates_dec request e) as [[u Hc]|Hnot].
    + destruct (submitted_cents request) as [cents Hcents]; [apply Hc|].
      destruct (create_product_creates _ _ _ _ Hc Hcents)
        as (form & Hrun & _).
      right. exists u, cents. unfold after. by rewrite Hrun.
    + left. by destruct (create_product_not_creates _ _ Hnot) as (-> & _).
Qed.

(** X13.  The three views keep the primary keys of the product table
    distinct: [login_view] and [logout_view] do not touch the table,
    and [create_product] gives a new row a key that is not in use. *)
Theorem ids_unique_preserved (view : View) (request : HttpRequest)
    (e : Env) :
  In view [login_view; logout_view; create_product] ->
  ids_unique (db e) ->
  ids_unique (db (after view request e)).
Proof.
  intros Hview Hids. unfold ids_unique in *.
  destruct (products_grow view request e Hview) as [->|(u & cents & ->)];
    [done|].
  rewrite List.map_app. apply NoDup_ListNoDup.
  apply NoDup_ListNoDup in Hids.
  apply NoDup_app. split; [done|]. split.
  - intros k Hk [<-|[]]%list_elem_of_In.
    apply list_elem_of_In in Hk. by apply (next_id_fresh (db e)).
  - apply NoDup_singleton.
Qed.

Lemma ids_unique_preserved_witness :
  ids_unique (db (after create_product post_gadget env_widget)).
Proof.
  apply (ids_unique_preserved create_product post_gadget env_widget).
  - simpl. auto.
  - unfold ids_unique. simpl. repeat constructor. simpl. intuition.
Defined.

(** X14.  A POST to [create_product] by a session user who holds the
    permission always ends with the form rendered, bound to the
    submitted data and files, and with exactly one new message: the
    success message when the form has no errors, the error message
    otherwise. *)
Theorem create_product_post_message (request : HttpRequest) (e : Env)
    (u : UserModel) :
  method request = "POST" ->
  get_user (db e) (session e) = Some u ->
  has_perm (Some u) add_productmodel = true ->
  (exists form,
     (get_response create_product request e).1
       = Rendered "ProductForm.html" {[ "form" := form ]}
     /\ is_bound form = true
     /\ data form = POST request
     /\ files form = FILES request
     /\ errors form = Some (request_errors request))
  /\ messages (after create_product request e) =
       (messages e
        ++ [ if bool_decide (request_errors request = ∅)
             then (SUCCESS, "Product created successfully")
             else (ERROR, "Error creating product") ])%list.
Proof.
  intros Hm Hu Hperm.
  destruct (decide (request_errors request = ∅)) as [Herr|Herr].
  - rewrite bool_decide_eq_true_2 by done.
    destruct (submitted_cents request Herr) as [cents Hcents].
    destruct (create_product_creates request e u cents) as
      (form & Hrun & Hb & Hd & Hf & He & _); [done|done|].
    unfold after. rewrite Hrun. split; [|done].
    exists form. by rewrite Herr.
  - rewrite bool_decide_eq_false_2 by done. unfold after.
    rewrite (get_response_create_product _ _ _ Hu Hperm).
    rewrite (create_product_body_invalid _ _ Hm Herr).
    split; [|done]. by eexists.
Qed.

Lemma create_product_post_message_witness :
  (exists form,
     (get_response create_product post_blank_name env_alice).1
       = Rendered "ProductForm.html" {[ "form" := form ]}
     /\ is_bound form = true
     /\ data form = POST post_blank_name
     /\ files form = FILES post_blank_name
     /\ errors form = Some (request_errors post_blank_name))
  /\ messages (after create_product post_blank_name env_alice) =
       (messages env_alice
        ++ [ if bool_decide (request_errors post_blank_name = ∅)
             then (SUCCESS, "Product created successfully")
             else (ERROR, "Error creating product") ])%list.
Proof.
  apply (create_product_post_message post_blank_name env_alice alice);
    reflexivity.
Defined.

(** A reference that the table holds is still there after more rows
    were appended. *)
Lemma references_app (k : nat) (rows more : list ProductRow) :
  existsb (references k) rows = true ->
  existsb (references k) (rows ++ more) = true.
Proof. intros H. rewrite existsb_app, H. done. Qed.

(** X15.  Once a user has created a product, that user cannot be
    deleted: the deletion raises [ProtectedError] right after the
    creation, and still does after any further request to one of the
    three views, since none of them removes a product. *)
Theorem creator_cannot_be_deleted (request later : HttpRequest) (e : Env)
    (u : UserModel) (view : View) :
  creates request e u ->
  In view [login_view; logout_view; create_product] ->
  UserModel_delete (pk u) (after create_product request e)
    = (Raised ProtectedError, after create_product request e)
  /\ UserModel_delete (pk u)
       (after view later (after create_product request e))
     = (Raised ProtectedError,
        after view later (after create_product request e)).
Proof.
  intros Hc Hview.
  destruct (submitted_cents request) as [cents Hcents]; [apply Hc|].
  destruct (create_product_creates _ _ _ _ Hc Hcents) as (form & Hrun & _).
  assert (Href : existsb (references (pk u))
                   (products (db (after create_product request e))) = true).
  { unfold after. rewrite Hrun. cbn [snd db with_messages with_db
      with_products products].
    rewrite existsb_app. apply orb_true_iff. right.
    cbn. unfold references. cbn.
    by rewrite bool_decide_eq_true_2. }
  assert (Hblocked : forall e0,
    existsb (references (pk u)) (products (db e0)) = true ->
    UserModel_delete (pk u) e0 = (Raised ProtectedError, e0)).
  { intros e0 H0. unfold UserModel_delete. run. by rewrite H0. }
  split; [by apply Hblocked|]. apply Hblocked.
  destruct (products_grow view later (after create_product request e) Hview)
    as [->|(u' & cents' & ->)]; [done|].
  by apply references_app.
Qed.

Lemma creator_cannot_be_deleted_witness :
  UserModel_delete (pk alice) (after create_product post_widget env_alice)
    = (Raised ProtectedError, after create_product post_widget env_alice)
  /\ UserModel_delete (pk alice)
       (after logout_view delete_logout
          (after create_product post_widget env_alice))
     = (Raised ProtectedError,
        after logout_view delete_logout
          (after create_product post_widget env_alice)).
Proof.
  apply (creator_cannot_be_deleted post_widget delete_logout env_alice
           alice logout_view).
  - repeat split; vm_compute; reflexivity.
  - simpl. auto.
Defined.

(** X16.  The instance that a successful POST renders back has been
    saved: it carries the key of its row, and [__str__] gives the
    submitted name without surrounding whitespace. *)
Theorem created_product_str (request : HttpRequest) (e : Env)
    (u : UserModel) (v : string) :
  creates request e u ->
  POST request !! "nombre" = Some v ->
  exists form row,
    (get_response create_product request e).1
      = Rendered "ProductForm.html" {[ "form" := form ]}
    /\ products (db (after create_product request e))
         = (products (db e) ++ [row])%list
    /\ id (instance form) = Some (row_id row)
    /\ ProductModel_str (instance form) = Text.strip v
    /\ row_nombre row = ProductModel_str (instance form).
Proof.
  intros Hc Hv.
  destruct (submitted_cents request) as [cents Hcents]; [apply Hc|].
  destruct (create_product_creates _ _ _ _ Hc Hcents)
    as (form & Hrun & _ & _ & _ & _ & Hid & Hstr).
  destruct (request_errors_empty_inv request) as
    (v' & _ & _ & _ & _ & Hv' & Hnom & _); [apply Hc|].
  assert (v' = v) as -> by congruence.
  exists form, (new_row request e u cents).
  unfold after. rewrite Hrun. rewrite Hstr, Hnom. by repeat split.
Qed.

Lemma created_product_str_witness :
  exists form row,
    (get_response create_product post_gadget env_widget).1
      = Rendered "ProductForm.html" {[ "form" := form ]}
    /\ products (db (after create_product post_gadget env_widget))
         = (products (db env_widget) ++ [row])%list
    /\ id (instance form) = Some (row_id row)
    /\ ProductModel_str (instance form) = Text.strip "  Gadget "
    /\ row_nombre row = ProductModel_str (instance form).
Proof.
  apply (created_product_str post_gadget env_widget alice "  Gadget ").
  - repeat split; vm_compute; reflexivity.
  - reflexivity.
Defined.

(** The user behind a session is active. *)
Lemma get_user_active (d : Database) (s : Session) (u : UserModel) :
  get_user d s = Some u -> is_active u = true.
Proof.
  unfold get_user. destruct (auth_user_id s) as [k|]; [|done].
  destruct (get_by_pk d k) as [u'|]; [|done].
  unfold user_can_authenticate.
  destruct (is_active u') eqn:Hact; [|done]. by intros [= <-].
Qed.

(** X17.  Who gets through the decorators of [create_product],
    whatever the method: a session without an active user is
    redirected to the login URL; a session user who is neither a
    superuser nor holds [products.add_productmodel] gets 403; every
    other session user reaches the view body. *)
Theorem create_product_authorization (request : HttpRequest) (e : Env) :
  get_response create_product request e =
    match get_user (db e) (session e) with
    | None =>
        (HttpResponseRedirect (LoginUrl (path request)), with_user None e)
    | Some u =>
        if is_superuser u || bool_decide (add_productmodel ∈ permissions u)
        then get_response create_product_body request e
        else (Response "<h1>403 Forbidden</h1>" 403, with_user (Some u) e)
    end.
Proof.
  destruct (get_user (db e) (session e)) as [u|] eqn:Hu.
  - assert (Hperm : has_perm (Some u) add_productmodel =
              (is_superuser u
               || bool_decide (add_productmodel ∈ permissions u))).
    { unfold has_perm. by rewrite (get_user_active _ _ _ Hu). }
    destruct (is_superuser u
              || bool_decide (add_productmodel ∈ permissions u)).
    + rewrite (get_response_create_product _ _ _ Hu Hperm).
      unfold get_response. by rewrite Hu.
    + unfold get_response, create_product. rewrite Hu.
      by rewrite guarded_rejects.
  - unfold get_response, create_product. rewrite Hu.
    by rewrite guarded_rejects.
Qed.

(** Carol, a superuser without the permission, gets the form; Bob
    gets 403; Dave, whose account is inactive, is sent to the login
    page. *)
Example create_product_authorization_cases :
  (get_response create_product get_create (env_four (session_of 3))).1
    = Rendered "ProductForm.html" {[ "form" := ProductForm_new ]}
  /\ status_code
       (get_response create_product get_create (env_four (session_of 2))).1
     = 403%nat
  /\ (get_response create_product get_create (env_four (session_of 4))).1
     = HttpResponseRedirect (LoginUrl "/create/").
Proof. repeat split; vm_compute; reflexivity. Qed.

(** X18.  [logout_view] does not end a session whose user has been
    deactivated or removed: the middleware treats the requester as
    anonymous, [login_required] redirects to the login URL, and the
    session keeps naming that user. *)
Theorem logout_view_stale_session (request : HttpRequest) (e : Env)
    (k : nat) :
  auth_user_id (session e) = Some k ->
  get_by_pk (db e) k = None
    \/ (exists u, get_by_pk (db e) k = Some u /\ is_active u = false) ->
  get_response logout_view request e =
    (HttpResponseRedirect (LoginUrl (path request)), with_user None e)
  /\ session (after logout_view request e) = session e
  /\ auth_user_id (session (after logout_view request e)) = Some k.
Proof.
  intros Hk Hstale.
  assert (Hu : get_user (db e) (session e) = None).
  { unfold get_user. rewrite Hk.
    destruct Hstale as [->|(u & -> & Hact)]; [done|].
    unfold user_can_authenticate. by rewrite Hact. }
  assert (Hrun : get_response logout_view request e =
    (HttpResponseRedirect (LoginUrl (path request)), with_user None e)).
  { unfold get_response. rewrite Hu.
    unfold logout_view, login_required, user_passes_test. reflexivity. }
  unfold after. rewrite Hrun. by repeat split.
Qed.

(** Dave's account is inactive, his session is still there. *)
Lemma logout_view_stale_session_witness :
  get_response logout_view delete_logout (env_four (session_of 4)) =
    (HttpResponseRedirect (LoginUrl (path delete_logout)),
     with_user None (env_four (session_of 4)))
  /\ session (after logout_view delete_logout (env_four (session_of 4)))
       = session (env_four (session_of 4))
  /\ auth_user_id
       (session (after logout_view delete_logout (env_four (session_of 4))))
     = Some 4%nat.
Proof.
  apply (logout_view_stale_session delete_logout
           (env_four (session_of 4)) 4).
  - reflexivity.
  - right. exists dave. split; reflexivity.
Defined.

(** ** core/models.py: the timestamps of [AuditModel] *)

(** A successful [save] of an instance without a key is an insert. *)
Lemma Model_save_insert_inv (inst inst1 : ProductModel) (e e1 : Env) :
  id inst = None ->
  Model_save inst e = (Ok inst1, e1) ->
  exists p cents c u,
    precio inst = Some p /\ to_cents p = Some cents
    /\ created_by (audit inst) = Some c /\ updated_by (audit inst) = Some u
    /\ user_exists (db e) c = true /\ user_exists (db e) u = true.
Proof.
  intros Hid. unfold Model_save, mbind, M_bind, bind, get, raise.
  cbv beta iota. rewrite Hid.
  destruct (precio inst) as [p|]; [|done].
  destruct (to_cents p) as [cents|] eqn:Hcents; [|done].
  destruct (created_by (audit inst)) as [c|]; [|done].
  destruct (updated_by (audit inst)) as [u|]; [|done].
  destruct (user_exists (db e) c) eqn:Hc; [|done].
  destruct (user_exists (db e) u) eqn:Hu; [|done].
  intros _. by exists p, cents, c, u.
Qed.

(** Replacing the row of a key that only the last row has. *)
Lemma replace_last_row (rows : list ProductRow) (row row2 : ProductRow) :
  ~ In (row_id row) (map row_id rows) ->
  map (fun r => if bool_decide (row_id r = row_id row) then row2 else r)
    (rows ++ [row]) = (rows ++ [row2])%list.
Proof.
  intros Hfresh. rewrite List.map_app. cbn [map].
  rewrite bool_decide_eq_true_2 by done. f_equal.
  induction rows as [|r rows IH]; [done|]. cbn [map] in *.
  rewrite bool_decide_eq_false_2 by (intros Heq; apply Hfresh; by left).
  f_equal. apply IH. intros Hin. apply Hfresh. by right.
Qed.

(** X19.  [created_at] ([auto_now_add]) is written once, [updated_at]
    ([auto_now]) on every save.  An instance that was inserted at one
    time and is saved again at a later time keeps its row, its key and
    its [created_at]; [updated_at] becomes the later time; no row is
    added. *)
Theorem save_again_keeps_created_at (inst inst1 : ProductModel)
    (e e1 : Env) (later : N) :
  id inst = None ->
  Model_save inst e = (Ok inst1, e1) ->
  exists row row2 inst2,
    products (db e1) = (products (db e) ++ [row])%list
    /\ row_created_at row = now e
    /\ row_updated_at row = now e
    /\ Model_save inst1 (with_now later e1) =
         (Ok inst2,
          with_db (with_products (products (db e) ++ [row2])%list (db e1))
            (with_now later e1))
    /\ row_id row2 = row_id row
    /\ row_created_at row2 = now e
    /\ row_updated_at row2 = later
    /\ row_nombre row2 = row_nombre row
    /\ row_precio row2 = row_precio row
    /\ row_created_by row2 = row_created_by row
    /\ id inst2 = id inst1.
Proof.
  intros Hid Hsave.
  destruct (Model_save_insert_inv _ _ _ _ Hid Hsave)
    as (p & cents & c & u & Hp & Hcents & Hc & Hu & Hec & Heu).
  rewrite (Model_save_insert inst e p cents c u Hid Hp Hcents Hc Hu Hec Heu)
    in Hsave.
  injection Hsave as <- <-.
  eexists _, _, _. split; [reflexivity|]. split; [reflexivity|].
  split; [reflexivity|]. split.
  - unfold Model_save, mbind, M_bind, bind, get, raise, modify, mret, M_ret,
      ret.
    cbv beta iota.
    cbn [id precio audit created_at created_by updated_by active db with_db
         with_now with_products users products now imagen nombre
         descripcion].
    assert (Hexists : row_exists
      (with_products
         (products (db e)
          ++ [ {| row_id := next_id (db e); row_imagen := imagen inst;
                  row_nombre := nombre inst;
                  row_descripcion := descripcion inst;
                  row_precio := cents;
                  row_created_at := now e; row_updated_at := now e;
                  row_created_by := c; row_updated_by := u;
                  row_active := active (audit inst) |} ])%list (db e))
      (next_id (db e)) = true).
    { unfold row_exists. cbn [products with_products].
      rewrite existsb_app. apply orb_true_iff. right. cbn.
      by rewrite bool_decide_eq_true_2. }
    rewrite Hexists, Hcents.
    change (user_exists (with_products ?rows (db e)) ?k)
      with (user_exists (db e) k).
    rewrite Hec, Heu. cbn [andb].
    erewrite (replace_last_row (products (db e))
                {| row_id := next_id (db e); row_imagen := imagen inst;
                   row_nombre := nombre inst;
                   row_descripcion := descripcion inst;
                   row_precio := cents;
                   row_created_at := now e; row_updated_at := now e;
                   row_created_by := c; row_updated_by := u;
                   row_active := active (audit inst) |});
      [reflexivity | apply next_id_fresh].
  - by cbn.
Qed.

(** The Widget is saved at time 1000 and again at time 3000. *)
Lemma save_again_keeps_created_at_witness :
  exists row row2 inst2,
    products (db (Model_save widget_instance env_alice).2)
      = (products (db env_alice) ++ [row])%list
    /\ row_created_at row = now env_alice
    /\ row_updated_at row = now env_alice
    /\ Model_save widget_saved
         (with_now 3000 (Model_save widget_instance env_alice).2) =
         (Ok inst2,
          with_db (with_products (products (db env_alice) ++ [row2])%list
                     (db (Model_save widget_instance env_alice).2))
            (with_now 3000 (Model_save widget_instance env_alice).2))
    /\ row_id row2 = row_id row
    /\ row_created_at row2 = now env_alice
    /\ row_updated_at row2 = 3000%N
    /\ row_nombre row2 = row_nombre row
    /\ row_precio row2 = row_precio row
    /\ row_created_by row2 = row_created_by row
    /\ id inst2 = id widget_saved.
Proof.
  apply (save_again_keeps_created_at widget_instance widget_saved
           env_alice (Model_save widget_instance env_alice).2 3000).
  - reflexivity.
  - vm_compute. reflexivity.
Defined.

(** ** core/views.py: what [login_view] never does *)

(** X20.  [login_view] binds the session to a user only after that
    user's credentials were checked: whatever the request, either the
    session and [request.user] are left as they were, or the request
    is a POST whose [username] and [password] are those of an active
    user of the user table, and the session and [request.user] are
    that user's. *)
Theorem login_view_session_sound (request : HttpRequest) (e : Env) :
  (session (login_view request e).2 = session e
   /\ user (login_view request e).2 = user e)
  \/ (exists u pw,
        method request = "POST"
        /\ POST request !! "username" = Some (username u)
        /\ POST request !! "password" = Some pw
        /\ In u (users (db e))
        /\ check_password u pw = true
        /\ is_active u = true
        /\ auth_user_id (session (login_view request e).2) = Some (pk u)
        /\ user (login_view request e).2 = Some u).
Proof.
  unfold login_view.
  destruct (bool_decide (method request = "GET")).
  { left. run. by destruct (is_authenticated (user e)). }
  destruct (bool_decide (method request = "POST")) eqn:Hm; [|by left].
  apply bool_decide_eq_true_1 in Hm.
  unfold getitem, authenticate. run.
  destruct (POST request !! "username") as [name|] eqn:Hname; [|by left].
  destruct (POST request !! "password") as [pw|] eqn:Hpw; [|by left].
  destruct (get_by_natural_key (db e) name) as [u|] eqn:Hfind; [|by left].
  apply get_by_natural_key_Some in Hfind as [Hin <-].
  unfold user_can_authenticate.
  destruct (check_password u pw) eqn:Hcheck; [|by left].
  destruct (is_active u) eqn:Hact; [|by left].
  right. exists u, pw. by repeat split.
Qed.

(** ** Messages *)

(** X21.  No view drops a message that was recorded, and a request
    adds at most one. *)
Theorem messages_only_grow (view : View) (request : HttpRequest) (e : Env) :
  In view [login_view; logout_view; create_product] ->
  exists more,
    messages (after view request e) = (messages e ++ more)%list
    /\ (List.length more <= 1)%nat.
Proof.
  intros [<-|[<-|[<-|[]]]]; unfold after.
  - assert (Hview : forall e0, exists more,
      messages (login_view request e0).2 = (messages e0 ++ more)%list
      /\ (List.length more <= 1)%nat).
    { intros e0. unfold login_view.
      destruct (bool_decide (method request = "GET")).
      { exists []. run. rewrite List.app_nil_r.
        split; [by destruct (is_authenticated (user e0))|simpl; lia]. }
      destruct (bool_decide (method request = "POST"));
        [|exists []; by rewrite List.app_nil_r; split; [|simpl; lia]].
      unfold getitem, authenticate. run.
      destruct (POST request !! "username") as [name|];
        [|exists []; by rewrite List.app_nil_r; split; [|simpl; lia]].
      destruct (POST request !! "password") as [pw|];
        [|exists []; by rewrite List.app_nil_r; split; [|simpl; lia]].
      destruct (get_by_natural_key (db e0) name) as [u|];
        [destruct (check_password u pw && user_can_authenticate u)|];
        eexists [_]; split; try reflexivity; simpl; lia. }
    destruct (Hview (with_user (get_user (db e) (session e)) e))
      as (more & Hmore & Hlen).
    exists more. split; [|done]. unfold get_response.
    destruct (login_view request _) as [[[r|]|x] e'];
      [done|done|by destruct x].
  - exists []. rewrite List.app_nil_r. split; [|simpl; lia].
    unfold get_response, logout_view, login_required, user_passes_test.
    run. by destruct (get_user (db e) (session e)).
  - destruct (creates_dec request e) as [[u Hc]|Hnot].
    + destruct (submitted_cents request) as [cents Hcents]; [apply Hc|].
      destruct (create_product_creates _ _ _ _ Hc Hcents)
        as (form & Hrun & _).
      rewrite Hrun. eexists [_]. split; [reflexivity|simpl; lia].
    + destruct (create_product_not_creates _ _ Hnot) as (_ & _ & [H|H]);
        unfold after in H; rewrite H.
      * exists []. rewrite List.app_nil_r. split; [done|simpl; lia].
      * eexists [_]. split; [reflexivity|simpl; lia].
Qed.

Lemma messages_only_grow_witness :
  exists more,
    messages (after login_view post_login_wrong env_alice)
      = (messages env_alice ++ more)%list
    /\ (List.length more <= 1)%nat.
Proof.
  apply (messages_only_grow login_view post_login_wrong env_alice).
  simpl. auto.
Defined.
